(** * Smart Farming Assistant: the analysis aggregation engine

    A shallow embedding of the advisory functions of [main.py]
    ([simple_disease_pest_risk], [irrigation_schedule], [climate_advice],
    [simple_yield_forecast], [rotation_plan], [market_trends]) over the
    records of [schemas.py], and the properties of the specification that
    concern them.

    Python's [float] is IEEE 754 binary64; it is modelled by Rocq's primitive
    floats, whose operations are the same binary64 operations (rounding to
    nearest, ties to even).  Python's [str] is modelled by [string]; the
    lowercasing of [str.lower] is modelled on the ASCII letters, every other
    character being left unchanged (no key of the tables of the program
    contains a character that a non-ASCII character lowercases to).  Where
    a property is about the lowercased text itself, the functions are taken
    over [str.lower] as a parameter ([forecast_crop_with] and the like). *)

From Stdlib Require Import ZArith Floats String Ascii List Bool Lia.
Import ListNotations.

Set Warnings "-inexact-float".

Local Open Scope string_scope.
Local Open Scope list_scope.

(** ** Python values *)

Module Py.

(** The exceptions the modelled operations can raise. *)
Inductive exc : Type :=
| IndexError
| ValueError
| OverflowError.

(** A computation that returns a value or raises. *)
Inductive result (A : Type) : Type :=
| Ok (a : A)
| Raise (e : exc).

Arguments Ok {A} a.
Arguments Raise {A} e.

Definition bind {A B : Type} (r : result A) (k : A -> result B) : result B :=
  match r with
  | Ok a => k a
  | Raise e => Raise e
  end.

Definition succeeds {A : Type} (r : result A) : Prop :=
  exists a, r = Ok a.

(** Truth value of a float: every float but [0.0] and [-0.0] is true
    (NaN included). *)
Definition truthy (x : float) : bool := negb (PrimFloat.eqb x 0%float).

(** A float is a number (not NaN) exactly when it equals itself. *)
Definition is_number (x : float) : bool := PrimFloat.eqb x x.

(** [x and P(x)] on an optional float field: [None] and the zeros are false
    values, for anything else the test decides. *)
Definition opt_and (x : option float) (test : float -> bool) : bool :=
  match x with
  | Some v => truthy v && test v
  | None => false
  end.

(** The field is present (not [None]) and passes the test. *)
Definition present_and (x : option float) (test : float -> bool) : bool :=
  match x with
  | Some v => test v
  | None => false
  end.

(** Comparisons of a float with an integer or float literal, written as in
    the source. *)
Definition ge (x c : float) : bool := PrimFloat.leb c x.
Definition gt (x c : float) : bool := PrimFloat.ltb c x.
Definition lt (x c : float) : bool := PrimFloat.ltb x c.
Definition le (x c : float) : bool := PrimFloat.leb x c.

(** [float(n)] for an integer [n]: the nearest binary64 value. *)
Definition float_of_int (n : Z) : float :=
  SF2Prim (binary_normalize prec emax n 0 false).

(** [int(x)]: truncation toward zero; raises on infinities and NaN. *)
Definition int_of_float (x : float) : result Z :=
  match Prim2SF x with
  | S754_zero _ => Ok 0%Z
  | S754_finite s m e =>
      let v := if (0 <=? e)%Z
               then (Z.pos m * 2 ^ e)%Z
               else (Z.pos m / 2 ^ (- e))%Z in
      Ok (if s then (- v)%Z else v)
  | S754_infinity _ => Raise OverflowError
  | S754_nan => Raise ValueError
  end.

(** [str.lower] on ASCII text: the capitals A to Z become small letters and
    every other byte is left as it is.  It stands for [str.lower] where the
    lowercased text only feeds a comparison with the ASCII keys of the
    program; [agrees_on_ascii] below says what it shares with the library
    function. *)
Definition lower_ascii (c : ascii) : ascii :=
  let n := nat_of_ascii c in
  if Nat.leb 65 n && Nat.leb n 90 then ascii_of_nat (n + 32) else c.

Fixpoint lower (s : string) : string :=
  match s with
  | EmptyString => EmptyString
  | String c t => String (lower_ascii c) (lower t)
  end.

(** [needle in hay] for strings: [needle] occurs as a substring. *)
Fixpoint contains (needle hay : string) : bool :=
  String.prefix needle hay ||
  match hay with
  | EmptyString => false
  | String _ t => contains needle t
  end.

(** [x in l] for an optional string and a list of string literals. *)
Definition opt_in (x : option string) (l : list string) : bool :=
  match x with
  | Some s => existsb (String.eqb s) l
  | None => false
  end.

(** [l[-1]]: the last element; raises [IndexError] on the empty list. *)
Fixpoint last_item (l : list string) : result string :=
  match l with
  | [] => Raise IndexError
  | [x] => Ok x
  | _ :: t => last_item t
  end.

(** Truth value of an optional string or list: [None] and the empty value
    are false. *)
Definition nonempty_str (x : option string) : bool :=
  match x with
  | Some (String _ _) => true
  | _ => false
  end.

Definition nonempty_list (x : option (list string)) : bool :=
  match x with
  | Some (_ :: _) => true
  | _ => false
  end.

(** [x and len(x) > 0] on an optional list. *)
Definition opt_list_and (x : option (list string))
    (test : list string -> bool) : bool :=
  match x with
  | Some l => nonempty_list x && test l
  | None => false
  end.

(** [x or d] on an optional string: [x] unless it is a false value. *)
Definition str_or (x : option string) (d : string) : string :=
  match x with
  | Some (String c t) => String c t
  | _ => d
  end.

(** A [dict] with string keys, in insertion order. *)
Definition dict (V : Type) : Type := list (string * V).

Fixpoint dict_get {V : Type} (d : dict V) (k : string) : option V :=
  match d with
  | [] => None
  | (k', v) :: t => if String.eqb k' k then Some v else dict_get t k
  end.

(** [d[k] = v]: replaces the value of an existing key in place, appends a new
    key at the end. *)
Fixpoint dict_set {V : Type} (d : dict V) (k : string) (v : V) : dict V :=
  match d with
  | [] => [(k, v)]
  | (k', v') :: t =>
      if String.eqb k' k then (k', v) :: t else (k', v') :: dict_set t k v
  end.

End Py.

Import Py.

(** ** Records of [schemas.py] *)

Record Farmerprofile : Type := {
  name : string;
  phone : option string;
  location_text : option string;
  gps_lat : option float;
  gps_lng : option float;
  farm_size_ha : option float;
  soil_type : option string;
  elevation_m : option float;
  irrigation_method : option string;
  water_source : option string;
  farming_practices : option (list string);
  crop_history : option (list string);
  surrounding_env : option string
}.

Record Soiltest : Type := {
  soil_farmer_id : option string;
  ph : option float;
  nitrogen_ppm : option float;
  phosphorus_ppm : option float;
  potassium_ppm : option float;
  organic_matter_pct : option float;
  ec_dS_m : option float
}.

Record Farmobservation : Type := {
  farmer_id : option string;
  target_crop : option string;
  temp_c : option float;
  humidity_pct : option float;
  rainfall_mm : option float;
  wind_kph : option float;
  pest_signs : option (list string);
  disease_signs : option (list string);
  notes : option string
}.

(** [Farmobservation()]: every field at its default. *)
Definition default_observation : Farmobservation := {|
  farmer_id := None;
  target_crop := None;
  temp_c := None;
  humidity_pct := None;
  rainfall_mm := None;
  wind_kph := None;
  pest_signs := Some [];
  disease_signs := Some [];
  notes := None
|}.

(** ** [simple_disease_pest_risk] *)

Record Risk : Type := {
  disease : dict string;
  pest : dict string
}.

Definition set_disease (r : Risk) (k v : string) : Risk :=
  {| disease := dict_set (disease r) k v; pest := pest r |}.

Definition set_pest (r : Risk) (k v : string) : Risk :=
  {| disease := disease r; pest := dict_set (pest r) k v |}.

Definition simple_disease_pest_risk (obs : Farmobservation) : Risk :=
  let risk := {| disease := []; pest := [] |} in
  let risk :=
    if opt_and (humidity_pct obs) (fun h => ge h 80)
    then set_disease risk "fungal_general" "high"
    else if opt_and (humidity_pct obs) (fun h => ge h 60)
    then set_disease risk "fungal_general" "medium"
    else set_disease risk "fungal_general" "low" in
  let risk :=
    if opt_and (temp_c obs) (fun t => ge t 28)
    then set_pest risk "borers_aphids_general" "medium" else risk in
  let risk :=
    if opt_and (temp_c obs) (fun t => ge t 32)
    then set_pest risk "borers_aphids_general" "high" else risk in
  let risk :=
    if opt_and (rainfall_mm obs) (fun r => gt r 50)
    then set_disease risk "washout_root_rot" "medium" else risk in
  let risk :=
    if opt_list_and (pest_signs obs) (fun l => Nat.ltb 0 (length l))
    then set_pest risk "observed_signs" "high" else risk in
  let risk :=
    if opt_list_and (disease_signs obs) (fun l => Nat.ltb 0 (length l))
    then set_disease risk "observed_signs" "high" else risk in
  risk.

(** ** [irrigation_schedule] *)

Record Schedule : Type := {
  frequency_days : Z;
  amount_mm : Z;
  schedule_notes : list string
}.

Definition set_frequency (s : Schedule) (f : Z) : Schedule :=
  {| frequency_days := f; amount_mm := amount_mm s;
     schedule_notes := schedule_notes s |}.

Definition set_amount (s : Schedule) (a : Z) : Schedule :=
  {| frequency_days := frequency_days s; amount_mm := a;
     schedule_notes := schedule_notes s |}.

Definition append_note (s : Schedule) (n : string) : Schedule :=
  {| frequency_days := frequency_days s; amount_mm := amount_mm s;
     schedule_notes := schedule_notes s ++ [n] |}.

Definition sandy_note : string :=
  "Sandy soils drain fast; irrigate more frequently with smaller amounts.".
Definition clay_note : string :=
  "Clay soils retain water longer; reduce frequency but increase amount.".
Definition rainfall_note : string :=
  "Recent rainfall detected; skip next irrigation if field is moist.".
Definition drip_note : string :=
  "Using drip? Split daily in small doses for uniform moisture.".

Definition sandy_types : list string := ["sandy"; "sandy loam"; "loamy sand"].
Definition loam_types : list string := ["loam"; "loamy"].
Definition clay_types : list string := ["clay"; "clayey"; "silty clay"].

Definition irrigation_schedule (profile : option Farmerprofile)
    (soil : option Soiltest) (obs : option Farmobservation) : Schedule :=
  let schedule :=
    {| frequency_days := 3; amount_mm := 20; schedule_notes := [] |} in
  let soil_type' :=
    match profile with Some p => soil_type p | None => None end in
  let schedule :=
    if opt_in soil_type' sandy_types then
      append_note (set_amount (set_frequency schedule 2) 15) sandy_note
    else if opt_in soil_type' loam_types then
      set_amount (set_frequency schedule 3) 20
    else if opt_in soil_type' clay_types then
      append_note (set_amount (set_frequency schedule 4) 25) clay_note
    else schedule in
  let schedule :=
    if match obs with
       | Some o => opt_and (rainfall_mm o) (fun r => ge r 15)
       | None => false
       end
    then append_note schedule rainfall_note else schedule in
  let schedule :=
    if match profile with
       | Some p => match irrigation_method p with
                   | Some m => String.eqb m "drip"
                   | None => false
                   end
       | None => false
       end
    then append_note schedule drip_note else schedule in
  schedule.

(** ** [climate_advice] *)

Definition forest_tip : string :=
  "Watch for wildlife and pest pressure near forest edges; use traps and barriers.".
Definition wind_tip : string :=
  "High winds expected; stake young plants and secure mulches or covers.".
Definition heat_tip : string :=
  "Heat stress risk; irrigate early morning, add shade nets for seedlings.".
Definition cold_tip : string :=
  "Cold stress risk; consider row covers or mulches to retain soil heat.".
Definition mulching_tip : string :=
  "Adopt mulching to conserve moisture and suppress weeds.".
Definition ipm_tip : string :=
  "Use integrated pest management (IPM): monitoring, thresholds, biological controls.".

Definition append_if (b : bool) (tips : list string) (t : string)
  : list string :=
  if b then tips ++ [t] else tips.

Definition climate_advice (profile : option Farmerprofile)
    (obs : option Farmobservation) : list string :=
  let tips := [] in
  let tips :=
    append_if
      match profile with
      | Some p => match surrounding_env p with
                  | Some e => nonempty_str (Some e) && contains "forest" e
                  | None => false
                  end
      | None => false
      end tips forest_tip in
  let tips :=
    append_if
      match obs with
      | Some o => opt_and (wind_kph o) (fun w => gt w 30)
      | None => false
      end tips wind_tip in
  let tips :=
    append_if
      match obs with
      | Some o => opt_and (temp_c o) (fun t => gt t 35)
      | None => false
      end tips heat_tip in
  let tips :=
    append_if
      match obs with
      | Some o => opt_and (temp_c o) (fun t => lt t 10)
      | None => false
      end tips cold_tip in
  let tips := tips ++ [mulching_tip] in
  let tips := tips ++ [ipm_tip] in
  tips.

(** ** [simple_yield_forecast] *)

Record Forecast : Type := {
  crop : string;
  yield_kg_per_ha : Z
}.

Definition base_yields : dict Z :=
  [ ("wheat", 3500%Z); ("rice", 4500%Z); ("maize", 5000%Z);
    ("soybean", 2500%Z); ("cotton", 2200%Z); ("potato", 20000%Z);
    ("tomato", 30000%Z) ].

(** [d.get(k, default)]. *)
Definition dict_get_default {V : Type} (d : dict V) (k : string) (default : V)
  : V :=
  match dict_get d k with
  | Some v => v
  | None => default
  end.

(** The crop the forecast is made for, lowercased: the observation's target
    crop when it is a true value, else the last crop of the history when the
    history is a true value, else wheat. *)
Definition forecast_crop (profile : option Farmerprofile)
    (obs : option Farmobservation) : result string :=
  bind
    match obs with
    | Some {| target_crop := Some (String c t) |} => Ok (String c t)
    | _ =>
        match profile with
        | Some {| crop_history := Some (x :: l) |} => last_item (x :: l)
        | _ => Ok "wheat"
        end
    end
    (fun c => Ok (lower c)).

Definition ph_rule (soil : option Soiltest) : bool :=
  match soil with
  | Some s => opt_and (ph s) (fun x => lt x 5.5 || gt x 8.5)
  | None => false
  end.

Definition organic_rule (soil : option Soiltest) : bool :=
  match soil with
  | Some s => opt_and (organic_matter_pct s) (fun x => ge x 2.0)
  | None => false
  end.

Definition rainfall_rule (obs : option Farmobservation) : bool :=
  match obs with
  | Some o => opt_and (rainfall_mm o) (fun x => lt x 10)
  | None => false
  end.

Definition humidity_rule (obs : option Farmobservation) : bool :=
  match obs with
  | Some o => opt_and (humidity_pct o) (fun x => gt x 85)
  | None => false
  end.

(** The modifier after the four rules, applied in the order of the source. *)
Definition yield_modifier (soil : option Soiltest)
    (obs : option Farmobservation) : float :=
  let modifier := 1.0%float in
  let modifier :=
    if ph_rule soil then (modifier - 0.15)%float else modifier in
  let modifier :=
    if organic_rule soil then (modifier + 0.05)%float else modifier in
  let modifier :=
    if rainfall_rule obs then (modifier - 0.1)%float else modifier in
  let modifier :=
    if humidity_rule obs then (modifier - 0.05)%float else modifier in
  modifier.

Definition simple_yield_forecast (profile : option Farmerprofile)
    (soil : option Soiltest) (obs : option Farmobservation)
  : result Forecast :=
  bind (forecast_crop profile obs) (fun crop' =>
  let base := dict_get_default base_yields crop' 3000%Z in
  let modifier := yield_modifier soil obs in
  bind (int_of_float (float_of_int base * modifier)%float) (fun y =>
  Ok {| crop := crop'; yield_kg_per_ha := y |})).

(** ** [rotation_plan] *)

Definition cereal_successors : list string :=
  ["legume (soybean/chickpea)"; "oilseed (mustard/sunflower)";
   "vegetable (tomato/onion)"].
Definition fibre_successors : list string :=
  ["pulse (cowpea/green gram)"; "cereal (maize)"; "forage (sorghum/berseem)"].
Definition generic_rotation : list string :=
  ["cereal"; "legume"; "vegetable"].

(** The lowercased last crop of the history, [None] without one. *)
Definition last_crop (profile : option Farmerprofile)
  : result (option string) :=
  match profile with
  | Some {| crop_history := Some (x :: l) |} =>
      bind (last_item (x :: l)) (fun c => Ok (Some (lower c)))
  | _ => Ok None
  end.

Definition rotation_plan (profile : option Farmerprofile)
  : result (list string) :=
  bind (last_crop profile) (fun last =>
  if opt_in last ["rice"; "wheat"; "maize"] then Ok cereal_successors
  else if opt_in last ["cotton"; "sugarcane"] then Ok fibre_successors
  else Ok generic_rotation).

(** ** [market_trends] *)

Record Trend : Type := {
  trend_crop : string;
  avg_price : float;
  unit : string;
  demand : string;
  location : option string
}.

Definition market_trends (location_text' : option string)
    (crop' : option string) : list Trend :=
  let trends := [] in
  let sample :=
    [ {| trend_crop := str_or crop' "wheat"; avg_price := 21.5%float;
         unit := "INR/kg"; demand := "rising"; location := location_text' |};
      {| trend_crop := "tomato"; avg_price := 14.2%float;
         unit := "INR/kg"; demand := "stable"; location := location_text' |};
      {| trend_crop := "onion"; avg_price := 18.7%float;
         unit := "INR/kg"; demand := "high"; location := location_text' |} ] in
  trends ++ sample.

(** ** The engine part of [analyze] *)

Record Analysisresult : Type := {
  result_farmer_id : option string;
  result_target_crop : option string;
  disease_risk : dict string;
  pest_risk : dict string;
  result_irrigation_schedule : Schedule;
  result_climate_advice : list string;
  yield_forecast : Forecast;
  result_rotation_plan : list string;
  result_market_trends : list Trend
}.

Definition set_target_crop (o : Farmobservation) (c : option string)
  : Farmobservation :=
  {| farmer_id := farmer_id o; target_crop := c; temp_c := temp_c o;
     humidity_pct := humidity_pct o; rainfall_mm := rainfall_mm o;
     wind_kph := wind_kph o; pest_signs := pest_signs o;
     disease_signs := disease_signs o; notes := notes o |}.

(** [analyze] once the three documents have been looked up: [profile],
    [soil] and [obs_doc] are the records found for the farmer, [None] where
    the store has none. *)
Definition analyze_engine (req_farmer_id req_target_crop : option string)
    (profile : option Farmerprofile) (soil : option Soiltest)
    (obs_doc : option Farmobservation) : result Analysisresult :=
  let obs :=
    match obs_doc with Some o => o | None => default_observation end in
  let obs :=
    if nonempty_str req_target_crop
    then set_target_crop obs req_target_crop else obs in
  let risk := simple_disease_pest_risk obs in
  let schedule := irrigation_schedule profile soil (Some obs) in
  let tips := climate_advice profile (Some obs) in
  bind (simple_yield_forecast profile soil (Some obs)) (fun forecast =>
  bind (rotation_plan profile) (fun rotation =>
  let trends :=
    market_trends
      (match profile with Some p => location_text p | None => None end)
      (target_crop obs) in
  Ok {| result_farmer_id := req_farmer_id;
        result_target_crop := target_crop obs;
        disease_risk := disease risk;
        pest_risk := pest risk;
        result_irrigation_schedule := schedule;
        result_climate_advice := tips;
        yield_forecast := forecast;
        result_rotation_plan := rotation;
        result_market_trends := trends |})).

(** ** The behaviour the specification describes

    Definitions that follow the words of the specification, to be compared
    with the functions above.  In them a field is present when it is not
    [None]. *)

(** The level the specification gives for a humidity field. *)
Definition fungal_level (h : option float) : string :=
  if present_and h (fun v => ge v 80) then "high"
  else if present_and h (fun v => ge v 60 && lt v 80) then "medium"
  else "low".

(** The three inputs the schedule is said to depend on. *)
Definition soil_type_of (profile : option Farmerprofile) : option string :=
  match profile with Some p => soil_type p | None => None end.

Definition irrigation_method_of (profile : option Farmerprofile)
  : option string :=
  match profile with Some p => irrigation_method p | None => None end.

Definition rainfall_of (obs : option Farmobservation) : option float :=
  match obs with Some o => rainfall_mm o | None => None end.

(** The soil classes of the specification, by exact match. *)
Inductive soil_class : Type := Sandy | Loam | Clay | Unrecognized.

Definition classify_soil (st : option string) : soil_class :=
  match st with
  | Some s =>
      if in_dec string_dec s ["sandy"; "sandy loam"; "loamy sand"] then Sandy
      else if in_dec string_dec s ["loam"; "loamy"] then Loam
      else if in_dec string_dec s ["clay"; "clayey"; "silty clay"] then Clay
      else Unrecognized
  | None => Unrecognized
  end.

Definition uses_drip (method : option string) : bool :=
  match method with
  | Some m => if string_dec m "drip" then true else false
  | None => false
  end.

(** The schedule as the specification words it: frequency, amount and soil
    note by soil class, then the rainfall note, then the drip note. *)
Definition specified_schedule (st method : option string)
    (rain : option float) : Schedule :=
  let '(f, a, soil_notes) :=
    match classify_soil st with
    | Sandy => (2%Z, 15%Z, [sandy_note])
    | Loam => (3%Z, 20%Z, [])
    | Clay => (4%Z, 25%Z, [clay_note])
    | Unrecognized => (3%Z, 20%Z, [])
    end in
  {| frequency_days := f;
     amount_mm := a;
     schedule_notes :=
       soil_notes
       ++ (if present_and rain (fun r => ge r 15) then [rainfall_note] else [])
       ++ (if uses_drip method then [drip_note] else []) |}.

(** The tips of the climate advisor as the specification words them: each
    conditional tip when its condition holds on a present field, in the fixed
    order, then the two unconditional tips. *)
Definition specified_tips (env : option string) (wind temp : option float)
  : list string :=
  (if match env with
      | Some e => contains "forest" e
      | None => false
      end then [forest_tip] else [])
  ++ (if present_and wind (fun w => gt w 30) then [wind_tip] else [])
  ++ (if present_and temp (fun t => gt t 35) then [heat_tip] else [])
  ++ (if present_and temp (fun t => lt t 10) then [cold_tip] else [])
  ++ [mulching_tip; ipm_tip].

Definition surrounding_env_of (profile : option Farmerprofile)
  : option string :=
  match profile with Some p => surrounding_env p | None => None end.

Definition wind_of (obs : option Farmobservation) : option float :=
  match obs with Some o => wind_kph o | None => None end.

Definition temp_of (obs : option Farmobservation) : option float :=
  match obs with Some o => temp_c o | None => None end.

Definition humidity_of (obs : option Farmobservation) : option float :=
  match obs with Some o => humidity_pct o | None => None end.

Definition target_crop_of (obs : option Farmobservation) : option string :=
  match obs with Some o => target_crop o | None => None end.

Definition ph_of (soil : option Soiltest) : option float :=
  match soil with Some s => ph s | None => None end.

Definition organic_matter_of (soil : option Soiltest) : option float :=
  match soil with Some s => organic_matter_pct s | None => None end.

(** The yield modifier as the specification words it: 1.0, then each
    adjustment added when its condition holds on a present field. *)
Definition specified_modifier (ph' organic rain humidity : option float)
  : float :=
  let m := 1.0%float in
  let m := if present_and ph' (fun x => lt x 5.5 || gt x 8.5)
           then (m - 0.15)%float else m in
  let m := if present_and organic (fun x => ge x 2.0)
           then (m + 0.05)%float else m in
  let m := if present_and rain (fun x => lt x 10)
           then (m - 0.1)%float else m in
  let m := if present_and humidity (fun x => gt x 85)
           then (m - 0.05)%float else m in
  m.

(** The last entry of the crop history, [None] when the profile or the
    history is absent or the history is empty. *)
Definition last_history_entry (profile : option Farmerprofile)
  : option string :=
  match profile with
  | Some p =>
      match crop_history p with
      | Some l => List.last (map Some l) None
      | None => None
      end
  | None => None
  end.

(** The crop of the forecast as the specification words it: the target crop
    if present, else the last entry of the history if present, else wheat;
    lowercased. *)
Definition specified_crop (profile : option Farmerprofile)
    (obs : option Farmobservation) : string :=
  lower
    match target_crop_of obs with
    | Some c => c
    | None =>
        match last_history_entry profile with
        | Some c => c
        | None => "wheat"
        end
    end.

(** The same with a target crop counting only when it is not the empty
    string. *)
Definition resolved_crop (profile : option Farmerprofile)
    (obs : option Farmobservation) : string :=
  lower
    match target_crop_of obs with
    | Some (String a t) => String a t
    | _ =>
        match last_history_entry profile with
        | Some c => c
        | None => "wheat"
        end
    end.

(** The base-yield table of the specification, unknown crops at 3000. *)
Definition specified_base (c : string) : Z :=
  if string_dec c "wheat" then 3500
  else if string_dec c "rice" then 4500
  else if string_dec c "maize" then 5000
  else if string_dec c "soybean" then 2500
  else if string_dec c "cotton" then 2200
  else if string_dec c "potato" then 20000
  else if string_dec c "tomato" then 30000
  else 3000.

(** The rotation as the specification words it, from the lowercased last
    crop. *)
Definition specified_rotation (last : option string) : list string :=
  match last with
  | Some c =>
      if in_dec string_dec c ["rice"; "wheat"; "maize"]
      then cereal_successors
      else if in_dec string_dec c ["cotton"; "sugarcane"]
      then fibre_successors
      else generic_rotation
  | None => generic_rotation
  end.

(** The values the modifier takes over the sixteen outcomes of the four
    rules. *)
Definition modifier_values : list float :=
  [ 1.0; 0.95; 0.9; 0.85; 1.05; 0.9500000000000001; 0.8;
    0.7999999999999999; 0.75; 0.7 ]%float.

(** ** Sample records *)

Definition profile_with (st method env : option string)
    (history : option (list string)) : Farmerprofile := {|
  name := "farmer";
  phone := None;
  location_text := None;
  gps_lat := None;
  gps_lng := None;
  farm_size_ha := None;
  soil_type := st;
  elevation_m := None;
  irrigation_method := method;
  water_source := None;
  farming_practices := Some [];
  crop_history := history;
  surrounding_env := env
|}.

Definition soil_with (ph' organic : option float) : Soiltest := {|
  soil_farmer_id := None;
  ph := ph';
  nitrogen_ppm := None;
  phosphorus_ppm := None;
  potassium_ppm := None;
  organic_matter_pct := organic;
  ec_dS_m := None
|}.

Definition observation_with (crop' : option string)
    (temp humidity rain wind : option float) : Farmobservation := {|
  farmer_id := None;
  target_crop := crop';
  temp_c := temp;
  humidity_pct := humidity;
  rainfall_mm := rain;
  wind_kph := wind;
  pest_signs := Some [];
  disease_signs := Some [];
  notes := None
|}.

(** ** Further behaviour read off the source *)

(** The entry the temperature rules leave under ["borers_aphids_general"]:
    the second rule overrides the first. *)
Definition pest_level (t : option float) : option string :=
  if present_and t (fun v => ge v 32) then Some "high"
  else if present_and t (fun v => ge v 28 && lt v 32) then Some "medium"
  else None.

(** The entry the rainfall rule leaves under ["washout_root_rot"]. *)
Definition washout_level (r : option float) : option string :=
  if present_and r (fun v => gt v 50) then Some "medium" else None.

(** The entry a list of observed signs leaves under ["observed_signs"]. *)
Definition signs_level (l : option (list string)) : option string :=
  match l with
  | Some (_ :: _) => Some "high"
  | _ => None
  end.

Definition severities : list string := ["low"; "medium"; "high"].

(** A profile with another crop history. *)
Definition with_crop_history (p : Farmerprofile)
    (history : option (list string)) : Farmerprofile := {|
  name := name p;
  phone := phone p;
  location_text := location_text p;
  gps_lat := gps_lat p;
  gps_lng := gps_lng p;
  farm_size_ha := farm_size_ha p;
  soil_type := soil_type p;
  elevation_m := elevation_m p;
  irrigation_method := irrigation_method p;
  water_source := water_source p;
  farming_practices := farming_practices p;
  crop_history := history;
  surrounding_env := surrounding_env p
|}.

(** The [ge] and [le] bounds of a [Field] of [schemas.py], on an optional
    float: [None] passes. *)
Definition field_ge (x : option float) (bound : float) : bool :=
  match x with
  | Some v => ge v bound
  | None => true
  end.

Definition field_le (x : option float) (bound : float) : bool :=
  match x with
  | Some v => le v bound
  | None => true
  end.

(** The numeric constraints [schemas.py] declares on each record. *)
Definition Farmerprofile_valid (p : Farmerprofile) : bool :=
  field_ge (farm_size_ha p) 0
  && field_ge (elevation_m p) (-430) && field_le (elevation_m p) 9000.

Definition Soiltest_valid (s : Soiltest) : bool :=
  field_ge (ph s) 0 && field_le (ph s) 14
  && field_ge (nitrogen_ppm s) 0
  && field_ge (phosphorus_ppm s) 0
  && field_ge (potassium_ppm s) 0
  && field_ge (organic_matter_pct s) 0 && field_le (organic_matter_pct s) 100
  && field_ge (ec_dS_m s) 0.

Definition Farmobservation_valid (o : Farmobservation) : bool :=
  field_ge (humidity_pct o) 0 && field_le (humidity_pct o) 100
  && field_ge (rainfall_mm o) 0
  && field_ge (wind_kph o) 0.

(** ** [collection_name] *)

(** The record classes of [schemas.py] and their [__name__]. *)
Inductive model_class : Type :=
| FarmerprofileClass
| SoiltestClass
| FarmobservationClass
| AnalysisresultClass.

Definition class_name (c : model_class) : string :=
  match c with
  | FarmerprofileClass => "Farmerprofile"
  | SoiltestClass => "Soiltest"
  | FarmobservationClass => "Farmobservation"
  | AnalysisresultClass => "Analysisresult"
  end.

Definition collection_name (model_cls : model_class) : string :=
  lower (class_name model_cls).

(** The collection each class documents in its docstring. *)
Definition documented_collection (c : model_class) : string :=
  match c with
  | FarmerprofileClass => "farmerprofile"
  | SoiltestClass => "soiltest"
  | FarmobservationClass => "farmobservation"
  | AnalysisresultClass => "analysisresult"
  end.

(** Readings of a comparison of decoded floats. *)
Definition below (c : option comparison) : bool :=
  match c with
  | Some Lt | Some Eq => true
  | _ => false
  end.

Definition strictly_below (c : option comparison) : bool :=
  match c with
  | Some Lt => true
  | _ => false
  end.

(** ** The lowercasing functions over [str.lower]

    [lower] above is what [str.lower] does on ASCII text.  The functions
    below are the functions of the source that call [str.lower], with the
    library function itself as a parameter [str_lower]; a string stands for
    the UTF-8 encoding of a Python [str]. *)

(** Every byte is below 128: the text is ASCII. *)
Fixpoint is_ascii (s : string) : bool :=
  match s with
  | EmptyString => true
  | String c t => Nat.ltb (nat_of_ascii c) 128 && is_ascii t
  end.

(** What is known of [str.lower]: on ASCII text it turns the capitals A to Z
    into small letters and leaves every other character. *)
Definition agrees_on_ascii (str_lower : string -> string) : Prop :=
  forall s, is_ascii s = true -> str_lower s = lower s.

(** The crop of the forecast before lowercasing: the target crop when it is
    present and not the empty string, else the last entry of the history,
    else wheat. *)
Definition raw_crop (profile : option Farmerprofile)
    (obs : option Farmobservation) : string :=
  match target_crop_of obs with
  | Some (String a t) => String a t
  | _ =>
      match last_history_entry profile with
      | Some c => c
      | None => "wheat"
      end
  end.

Section OverStrLower.

Variable str_lower : string -> string.

Definition forecast_crop_with (profile : option Farmerprofile)
    (obs : option Farmobservation) : result string :=
  bind
    match obs with
    | Some {| target_crop := Some (String c t) |} => Ok (String c t)
    | _ =>
        match profile with
        | Some {| crop_history := Some (x :: l) |} => last_item (x :: l)
        | _ => Ok "wheat"
        end
    end
    (fun c => Ok (str_lower c)).

Definition simple_yield_forecast_with (profile : option Farmerprofile)
    (soil : option Soiltest) (obs : option Farmobservation)
  : result Forecast :=
  bind (forecast_crop_with profile obs) (fun crop' =>
  let base := dict_get_default base_yields crop' 3000%Z in
  let modifier := yield_modifier soil obs in
  bind (int_of_float (float_of_int base * modifier)%float) (fun y =>
  Ok {| crop := crop'; yield_kg_per_ha := y |})).

Definition last_crop_with (profile : option Farmerprofile)
  : result (option string) :=
  match profile with
  | Some {| crop_history := Some (x :: l) |} =>
      bind (last_item (x :: l)) (fun c => Ok (Some (str_lower c)))
  | _ => Ok None
  end.

Definition rotation_plan_with (profile : option Farmerprofile)
  : result (list string) :=
  bind (last_crop_with profile) (fun last =>
  if opt_in last ["rice"; "wheat"; "maize"] then Ok cereal_successors
  else if opt_in last ["cotton"; "sugarcane"] then Ok fibre_successors
  else Ok generic_rotation).

Definition analyze_engine_with (req_farmer_id req_target_crop : option string)
    (profile : option Farmerprofile) (soil : option Soiltest)
    (obs_doc : option Farmobservation) : result Analysisresult :=
  let obs :=
    match obs_doc with Some o => o | None => default_observation end in
  let obs :=
    if nonempty_str req_target_crop
    then set_target_crop obs req_target_crop else obs in
  let risk := simple_disease_pest_risk obs in
  let schedule := irrigation_schedule profile soil (Some obs) in
  let tips := climate_advice profile (Some obs) in
  bind (simple_yield_forecast_with profile soil (Some obs)) (fun forecast =>
  bind (rotation_plan_with profile) (fun rotation =>
  let trends :=
    market_trends
      (match profile with Some p => location_text p | None => None end)
      (target_crop obs) in
  Ok {| result_farmer_id := req_farmer_id;
        result_target_crop := target_crop obs;
        disease_risk := disease risk;
        pest_risk := pest risk;
        result_irrigation_schedule := schedule;
        result_climate_advice := tips;
        yield_forecast := forecast;
        result_rotation_plan := rotation;
        result_market_trends := trends |})).

End OverStrLower.

(** ** Order facts on binary64 floats

    The comparisons of primitive floats are specified by [SFcompare] on the
    decoded value; the facts below are what the thresholds of the rules
    need. *)

Module FloatOrder.

Local Open Scope float_scope.

Lemma SFcompare_antisym (x y : spec_float) :
  SFcompare y x = option_map CompOpp (SFcompare x y).
Proof.
  destruct x as [sx | sx | | sx mx ex], y as [sy | sy | | sy my ey];
    simpl; try reflexivity;
    try (destruct sx; reflexivity); try (destruct sy; reflexivity);
    try (destruct sx, sy; reflexivity).
  f_equal.
  rewrite (Z.compare_antisym ex ey).
  destruct sx, sy; simpl; try reflexivity;
    destruct (ex ?= ey)%Z eqn:E; simpl; try reflexivity.
  - pose proof (Pos.compare_cont_antisym mx my Eq) as H. simpl in H.
    now rewrite H.
  - pose proof (Pos.compare_cont_antisym mx my Eq) as H. simpl in H.
    now rewrite H.
Qed.

Lemma leb_is_number (x y : float) :
  (x <=? y) = true -> is_number x = true /\ is_number y = true.
Proof.
  unfold is_number. rewrite FloatAxioms.leb_spec, !FloatAxioms.eqb_spec.
  unfold SFleb, SFeqb.
  destruct (Prim2SF x) as [sx | sx | | sx mx ex],
           (Prim2SF y) as [sy | sy | | sy my ey];
    simpl; try discriminate; intros _; split;
    try reflexivity;
    try (destruct sx; reflexivity); try (destruct sy; reflexivity);
    try (destruct sx; rewrite Z.compare_refl, Pos.compare_cont_refl;
         reflexivity);
    try (destruct sy; rewrite Z.compare_refl, Pos.compare_cont_refl;
         reflexivity).
Qed.

Lemma ltb_is_number (x y : float) :
  (x <? y) = true -> is_number x = true /\ is_number y = true.
Proof.
  intros H. apply leb_is_number.
  rewrite FloatAxioms.leb_spec. rewrite FloatAxioms.ltb_spec in H.
  unfold SFleb, SFltb in *.
  destruct (SFcompare (Prim2SF x) (Prim2SF y)) as [[ | | ] | ];
    try discriminate; reflexivity.
Qed.

(** [x < y] excludes [y <= x]. *)
Lemma ltb_not_leb (x y : float) :
  (x <? y) = true -> (y <=? x) = false.
Proof.
  rewrite FloatAxioms.ltb_spec, FloatAxioms.leb_spec. unfold SFltb, SFleb.
  rewrite (SFcompare_antisym (Prim2SF x) (Prim2SF y)).
  destruct (SFcompare (Prim2SF x) (Prim2SF y)) as [[ | | ] | ];
    simpl; try discriminate; reflexivity.
Qed.

(** [x <= y] excludes [y < x]. *)
Lemma leb_not_ltb (x y : float) :
  (x <=? y) = true -> (y <? x) = false.
Proof.
  rewrite FloatAxioms.ltb_spec, FloatAxioms.leb_spec. unfold SFltb, SFleb.
  rewrite (SFcompare_antisym (Prim2SF x) (Prim2SF y)).
  destruct (SFcompare (Prim2SF x) (Prim2SF y)) as [[ | | ] | ];
    simpl; try discriminate; reflexivity.
Qed.

(** On numbers the order is total: not [y <= x] gives [x < y]. *)
Lemma not_leb_ltb (x y : float) :
  is_number x = true -> is_number y = true ->
  (y <=? x) = false -> (x <? y) = true.
Proof.
  unfold is_number.
  rewrite !FloatAxioms.eqb_spec, FloatAxioms.ltb_spec, FloatAxioms.leb_spec.
  unfold SFeqb, SFltb, SFleb.
  rewrite (SFcompare_antisym (Prim2SF x) (Prim2SF y)).
  destruct (SFcompare (Prim2SF x) (Prim2SF y)) as [[ | | ] | ] eqn:E;
    simpl; try discriminate; try reflexivity.
  intros Hx Hy _.
  destruct (Prim2SF x) as [sx | sx | | sx mx ex],
           (Prim2SF y) as [sy | sy | | sy my ey];
    simpl in *; discriminate.
Qed.

(** A zero is below every positive threshold. *)
Lemma zero_not_ge (x c : float) :
  (x =? 0) = true -> (0 <? c) = true -> (c <=? x) = false.
Proof.
  rewrite FloatAxioms.eqb_spec, FloatAxioms.ltb_spec, FloatAxioms.leb_spec.
  unfold SFeqb, SFltb, SFleb.
  change (Prim2SF 0) with (S754_zero false).
  destruct (Prim2SF x) as [sx | sx | | sx mx ex],
           (Prim2SF c) as [sc | sc | | sc mc ec];
    simpl; try discriminate; try reflexivity;
    try (destruct sx; discriminate); try (destruct sc; discriminate);
    try (destruct sc; intros; reflexivity || discriminate).
Qed.

Lemma zero_not_gt (x c : float) :
  (x =? 0) = true -> (0 <? c) = true -> (c <? x) = false.
Proof.
  rewrite FloatAxioms.eqb_spec, !FloatAxioms.ltb_spec.
  unfold SFeqb, SFltb.
  change (Prim2SF 0) with (S754_zero false).
  destruct (Prim2SF x) as [sx | sx | | sx mx ex],
           (Prim2SF c) as [sc | sc | | sc mc ec];
    simpl; try discriminate; try reflexivity;
    try (destruct sx; discriminate); try (destruct sc; discriminate);
    try (destruct sc; intros; reflexivity || discriminate).
Qed.

End FloatOrder.

(** ** Dictionaries *)

Section DictFacts.

Context {V : Type}.

Lemma dict_get_set_same (d : dict V) (k : string) (v : V) :
  dict_get (dict_set d k v) k = Some v.
Proof.
  induction d as [| [k' v'] t IH]; simpl.
  - now rewrite String.eqb_refl.
  - destruct (String.eqb k' k) eqn:E; simpl; rewrite E; auto.
Qed.

Lemma dict_get_set_other (d : dict V) (k k' : string) (v : V) :
  String.eqb k k' = false ->
  dict_get (dict_set d k v) k' = dict_get d k'.
Proof.
  intros Hne.
  induction d as [| [k0 v0] t IH]; simpl.
  - now rewrite Hne.
  - destruct (String.eqb k0 k) eqn:E; simpl.
    + apply String.eqb_eq in E. subst k0. now rewrite Hne.
    + now rewrite IH.
Qed.

End DictFacts.

(** ** The disease and pest risk estimator *)

Section RiskEstimator.

Import FloatOrder.
Local Open Scope float_scope.

(** The two tests of the source, with their truth-value guards, choose the
    level of the specification: a zero humidity passes neither threshold, and
    below 80 is what is left once [>= 80] has failed on a number. *)
Lemma fungal_branches (h : option float) :
  (if opt_and h (fun v => ge v 80) then "high"
   else if opt_and h (fun v => ge v 60) then "medium"
   else "low")%string = fungal_level h.
Proof.
  unfold fungal_level.
  destruct h as [v |]; simpl; [| reflexivity].
  unfold truthy, ge, lt.
  destruct (v =? 0) eqn:Hz; simpl.
  - rewrite (zero_not_ge v 80 Hz eq_refl), (zero_not_ge v 60 Hz eq_refl).
    reflexivity.
  - destruct (80 <=? v) eqn:H80; [reflexivity |].
    destruct (60 <=? v) eqn:H60; simpl; [| reflexivity].
    destruct (leb_is_number _ _ H60) as [_ Hv].
    now rewrite (not_leb_ltb v 80 Hv eq_refl H80).
Qed.

(** The fungal entry is written first and no later rule touches its key. *)
Lemma fungal_entry (obs : Farmobservation) :
  dict_get (disease (simple_disease_pest_risk obs)) "fungal_general" =
  Some (if opt_and (humidity_pct obs) (fun v => ge v 80) then "high"
        else if opt_and (humidity_pct obs) (fun v => ge v 60) then "medium"
        else "low")%string.
Proof.
  unfold simple_disease_pest_risk.
  destruct (opt_and (humidity_pct obs) (fun h => ge h 80));
    [| destruct (opt_and (humidity_pct obs) (fun h => ge h 60))];
    destruct (opt_and (temp_c obs) (fun t => ge t 28));
    destruct (opt_and (temp_c obs) (fun t => ge t 32));
    destruct (opt_and (rainfall_mm obs) (fun r => gt r 50));
    destruct (opt_list_and (pest_signs obs) _);
    destruct (opt_list_and (disease_signs obs) _);
    reflexivity.
Qed.

(** C3: for every observation the estimator sets
    [disease["fungal_general"]] to exactly one of "low", "medium", "high":
    "high" when humidity is present and at least 80, "medium" when it is
    present and in [60, 80), and "low" otherwise, absent humidity
    included. *)
Theorem fungal_general_level (obs : Farmobservation) :
  dict_get (disease (simple_disease_pest_risk obs)) "fungal_general" =
    Some (fungal_level (humidity_pct obs)) /\
  (fungal_level (humidity_pct obs) = "high" \/
   fungal_level (humidity_pct obs) = "medium" \/
   fungal_level (humidity_pct obs) = "low")%string /\
  fungal_level None = "low"%string.
Proof.
  split; [| split].
  - rewrite fungal_entry. now rewrite fungal_branches.
  - unfold fungal_level.
    destruct (present_and _ _); [now left |].
    destruct (present_and _ _); [right; now left | right; now right].
  - reflexivity.
Qed.

End RiskEstimator.

(** ** The irrigation scheduler *)

Section IrrigationScheduler.

Import FloatOrder.
Local Open Scope float_scope.
Local Open Scope Z_scope.

(** Membership in a list of literals, as the source tests it and as a
    proposition. *)
Lemma opt_in_In (s : string) (l : list string) :
  opt_in (Some s) l = true <-> In s l.
Proof.
  simpl. rewrite existsb_exists. split.
  - intros [x [Hx Heq]]. apply String.eqb_eq in Heq. now subst.
  - intros H. exists s. split; [exact H | apply String.eqb_refl].
Qed.

Lemma opt_in_dec (s : string) (l : list string) :
  opt_in (Some s) l = if in_dec string_dec s l then true else false.
Proof.
  destruct (in_dec string_dec s l) as [Hin | Hnin].
  - now apply opt_in_In.
  - destruct (opt_in (Some s) l) eqn:E; [| reflexivity].
    apply opt_in_In in E. contradiction.
Qed.

(** The guarded rainfall test of the source is the test on a present field:
    a zero rainfall is below the threshold anyway. *)
Lemma rainfall_guard (rain : option float) :
  opt_and rain (fun r => ge r 15) = present_and rain (fun r => ge r 15).
Proof.
  destruct rain as [r |]; simpl; [| reflexivity].
  unfold truthy, ge.
  destruct (r =? 0)%float eqn:Hz; simpl; [| reflexivity].
  now rewrite (zero_not_ge r 15 Hz eq_refl).
Qed.

Lemma drip_test (method : option string) :
  match method with
  | Some m => String.eqb m "drip"
  | None => false
  end = uses_drip method.
Proof.
  destruct method as [m |]; simpl; [| reflexivity].
  destruct (string_dec m "drip") as [-> | Hne]; [reflexivity |].
  now apply String.eqb_neq.
Qed.

(** The schedule computed by the source is the specified one. *)
Lemma irrigation_schedule_specified (profile : option Farmerprofile)
    (soil : option Soiltest) (obs : option Farmobservation) :
  irrigation_schedule profile soil obs =
  specified_schedule (soil_type_of profile) (irrigation_method_of profile)
    (rainfall_of obs).
Proof.
  unfold irrigation_schedule, specified_schedule.
  fold (soil_type_of profile).
  replace (match obs with
           | Some o => opt_and (rainfall_mm o) (fun r => ge r 15)
           | None => false
           end)
    with (present_and (rainfall_of obs) (fun r => ge r 15))
    by (destruct obs; simpl; [now rewrite rainfall_guard | reflexivity]).
  replace (match profile with
           | Some p => match irrigation_method p with
                       | Some m => String.eqb m "drip"
                       | None => false
                       end
           | None => false
           end)
    with (uses_drip (irrigation_method_of profile))
    by (destruct profile; simpl; [now rewrite drip_test | reflexivity]).
  destruct (soil_type_of profile) as [st |]; unfold classify_soil.
  - rewrite !opt_in_dec. unfold sandy_types, loam_types, clay_types.
    destruct (in_dec string_dec st _); [| destruct (in_dec string_dec st _);
      [| destruct (in_dec string_dec st _)]];
      destruct (present_and _ _); destruct (uses_drip _); reflexivity.
  - destruct (present_and _ _); destruct (uses_drip _); reflexivity.
Qed.

(** C6: for every input the schedule starts at frequency 3 and amount 20;
    an exact, case-sensitive match of the profile's soil type gives
    frequency 2 and amount 15 with a note for the sandy types, frequency 3 and
    amount 20 without a note for the loam types, frequency 4 and amount 25
    with a note for the clay types; an unrecognized or absent soil type keeps
    the default without a note; then the rainfall note is appended when
    rainfall is present and at least 15 mm, then the drip note when the
    irrigation method equals "drip", neither changing frequency or amount. *)
Theorem irrigation_schedule_rules (profile : option Farmerprofile)
    (soil : option Soiltest) (obs : option Farmobservation) :
  let st := soil_type_of profile in
  let result := irrigation_schedule profile soil obs in
  (frequency_days result, amount_mm result) =
    match classify_soil st with
    | Sandy => (2, 15)
    | Loam => (3, 20)
    | Clay => (4, 25)
    | Unrecognized => (3, 20)
    end /\
  schedule_notes result =
    match classify_soil st with
    | Sandy => [sandy_note]
    | Loam => []
    | Clay => [clay_note]
    | Unrecognized => []
    end
    ++ (if present_and (rainfall_of obs) (fun r => ge r 15)
        then [rainfall_note] else [])
    ++ (if uses_drip (irrigation_method_of profile)
        then [drip_note] else []) /\
  classify_soil None = Unrecognized /\
  classify_soil (Some "Clay"%string) = Unrecognized /\
  classify_soil (Some "silt"%string) = Unrecognized.
Proof.
  cbv zeta. rewrite irrigation_schedule_specified.
  unfold specified_schedule.
  destruct (classify_soil (soil_type_of profile));
    repeat split; reflexivity.
Qed.

(** C7: two calls whose inputs agree on the profile's soil type, the
    profile's irrigation method and the observation's rainfall (each possibly
    absent) return the same schedule, whatever the soil tests and the other
    fields; and soil type "clay" gives frequency 4, amount 25 and the clay
    note. *)
Theorem irrigation_schedule_depends_on_three_fields
    (profile1 profile2 : option Farmerprofile) (soil1 soil2 : option Soiltest)
    (obs1 obs2 : option Farmobservation) :
  soil_type_of profile1 = soil_type_of profile2 ->
  irrigation_method_of profile1 = irrigation_method_of profile2 ->
  rainfall_of obs1 = rainfall_of obs2 ->
  irrigation_schedule profile1 soil1 obs1 =
    irrigation_schedule profile2 soil2 obs2 /\
  (soil_type_of profile1 = Some "clay"%string ->
   frequency_days (irrigation_schedule profile1 soil1 obs1) = 4 /\
   amount_mm (irrigation_schedule profile1 soil1 obs1) = 25 /\
   hd_error (schedule_notes (irrigation_schedule profile1 soil1 obs1)) =
     Some clay_note).
Proof.
  intros Hst Hmethod Hrain. split.
  - rewrite !irrigation_schedule_specified.
    now rewrite Hst, Hmethod, Hrain.
  - intros Hclay. rewrite irrigation_schedule_specified, Hclay.
    repeat split; reflexivity.
Qed.

Lemma irrigation_schedule_depends_on_three_fields_witness :
  let profile1 := Some (profile_with (Some "clay") (Some "drip") None None) in
  let profile2 :=
    Some (profile_with (Some "clay") (Some "drip") (Some "forest edge")
            (Some ["rice"])) in
  let soil2 := Some (soil_with (Some 9.0%float) (Some 3.0%float)) in
  let obs1 :=
    Some (observation_with None None None (Some 20.0%float) None) in
  let obs2 :=
    Some (observation_with (Some "rice") (Some 40.0%float)
            (Some 90.0%float) (Some 20.0%float) (Some 35.0%float)) in
  irrigation_schedule profile1 None obs1 =
    irrigation_schedule profile2 soil2 obs2 /\
  frequency_days (irrigation_schedule profile1 None obs1) = 4 /\
  amount_mm (irrigation_schedule profile1 None obs1) = 25 /\
  hd_error (schedule_notes (irrigation_schedule profile1 None obs1)) =
    Some clay_note.
Proof.
  cbv zeta.
  destruct (irrigation_schedule_depends_on_three_fields
              (Some (profile_with (Some "clay") (Some "drip") None None))
              (Some (profile_with (Some "clay") (Some "drip")
                       (Some "forest edge") (Some ["rice"])))
              None
              (Some (soil_with (Some 9.0%float) (Some 3.0%float)))
              (Some (observation_with None None None (Some 20.0%float) None))
              (Some (observation_with (Some "rice") (Some 40.0%float)
                       (Some 90.0%float) (Some 20.0%float)
                       (Some 35.0%float)))
              eq_refl eq_refl eq_refl) as [Hsame Hclay].
  split; [exact Hsame | exact (Hclay eq_refl)].
Defined.

(** C10: every schedule has a frequency among 2, 3, 4, an amount among 15,
    20, 25, and at most three notes. *)
Theorem irrigation_schedule_ranges (profile : option Farmerprofile)
    (soil : option Soiltest) (obs : option Farmobservation) :
  let result := irrigation_schedule profile soil obs in
  In (frequency_days result) [2; 3; 4] /\
  In (amount_mm result) [15; 20; 25] /\
  (length (schedule_notes result) <= 3)%nat.
Proof.
  cbv zeta. rewrite irrigation_schedule_specified.
  unfold specified_schedule.
  destruct (classify_soil _); destruct (present_and _ _);
    destruct (uses_drip _); simpl; repeat split; auto; lia.
Qed.

End IrrigationScheduler.

(** ** The climate advisor *)

Section ClimateAdvisor.

Import FloatOrder.
Local Open Scope float_scope.

Lemma above_guard (x : option float) (c : float) :
  (0 <? c) = true ->
  opt_and x (fun v => gt v c) = present_and x (fun v => gt v c).
Proof.
  intros Hc. destruct x as [v |]; simpl; [| reflexivity].
  unfold truthy, gt.
  destruct (v =? 0) eqn:Hz; simpl; [| reflexivity].
  now rewrite (zero_not_gt v c Hz Hc).
Qed.

Lemma forest_guard (e : string) :
  nonempty_str (Some e) && contains "forest" e = contains "forest" e.
Proof. destruct e; reflexivity. Qed.

(** What the source computes: the forest, wind and heat tips are appended
    exactly on their conditions on a present field; the cold tip is appended
    on its condition behind the truth-value guard of the temperature. *)
Lemma climate_advice_guarded (profile : option Farmerprofile)
    (obs : option Farmobservation) :
  climate_advice profile obs =
  (if match surrounding_env_of profile with
      | Some e => contains "forest" e
      | None => false
      end then [forest_tip] else [])
  ++ (if present_and (wind_of obs) (fun w => gt w 30) then [wind_tip] else [])
  ++ (if present_and (temp_of obs) (fun t => gt t 35) then [heat_tip] else [])
  ++ (if opt_and (temp_of obs) (fun t => lt t 10) then [cold_tip] else [])
  ++ [mulching_tip; ipm_tip].
Proof.
  unfold climate_advice, append_if.
  destruct profile as [p |], obs as [o |];
    cbn [surrounding_env_of wind_of temp_of present_and opt_and];
    rewrite ?(above_guard _ 30 eq_refl), ?(above_guard _ 35 eq_refl);
    try (destruct (surrounding_env p) as [e |];
         [rewrite forest_guard; destruct (contains "forest" e) |]);
    repeat match goal with
           | |- context [present_and ?x ?f] => destruct (present_and x f)
           | |- context [opt_and ?x ?f] => destruct (opt_and x f)
           end;
    reflexivity.
Qed.

(** C2, at a temperature of 0.0 degrees: the temperature is present and
    below 10, the specification appends the cold-stress tip, the source does
    not, because its guard takes the zero for an absent value. *)
Theorem cold_tip_skipped_at_zero_degrees :
  let obs := observation_with None (Some 0) None None None in
  present_and (temp_c obs) (fun t => lt t 10) = true /\
  climate_advice None (Some obs) = [mulching_tip; ipm_tip] /\
  specified_tips None (wind_kph obs) (temp_c obs) =
    [cold_tip; mulching_tip; ipm_tip].
Proof. repeat split; reflexivity. Qed.

End ClimateAdvisor.

(** ** The yield forecaster *)

Section YieldForecaster.

Import FloatOrder.
Local Open Scope float_scope.
Local Open Scope Z_scope.

(** On a non-empty list [l[-1]] returns, and returns the last element. *)
Lemma last_item_nonempty (l : list string) (x : string) :
  exists c, last_item (x :: l) = Ok c /\
            List.last (map Some (x :: l)) None = Some c.
Proof.
  revert x. induction l as [| y t IH]; intros x.
  - exists x. split; reflexivity.
  - destruct (IH y) as [c [Hitem Hlast]].
    exists c. split; [exact Hitem | exact Hlast].
Qed.

(** The crop resolution returns, with the target crop when it is a non-empty
    string, else the last entry of the history, else wheat. *)
Lemma forecast_crop_resolved (profile : option Farmerprofile)
    (obs : option Farmobservation) :
  forecast_crop profile obs = Ok (resolved_crop profile obs).
Proof.
  unfold forecast_crop, resolved_crop, target_crop_of, last_history_entry.
  assert (Hhistory :
    bind match profile with
         | Some {| crop_history := Some (x :: l) |} => last_item (x :: l)
         | _ => Ok "wheat"%string
         end (fun c => Ok (lower c)) =
    Ok (lower match match profile with
                    | Some p => match crop_history p with
                                | Some l => List.last (map Some l) None
                                | None => None
                                end
                    | None => None
                    end with
              | Some c => c
              | None => "wheat"%string
              end)).
  { destruct profile as [[? ? ? ? ? ? ? ? ? ? ? [[| x l] |] ?] |];
      try reflexivity.
    cbn [crop_history].
    destruct (last_item_nonempty l x) as [c [-> ->]]. reflexivity. }
  destruct obs as [[? [[| a t] |] ? ? ? ? ? ? ?] |];
    cbn [target_crop]; try exact Hhistory.
  reflexivity.
Qed.

Lemma key_test (k c : string) :
  String.eqb k c = if string_dec c k then true else false.
Proof.
  destruct (string_dec c k) as [-> | Hne].
  - apply String.eqb_refl.
  - apply String.eqb_neq. congruence.
Qed.

(** The lookup in [base_yields] is the table of the specification. *)
Lemma base_yield_table (c : string) :
  dict_get_default base_yields c 3000 = specified_base c.
Proof.
  unfold dict_get_default, base_yields, specified_base, dict_get.
  rewrite !key_test.
  repeat match goal with
         | |- context [string_dec c ?k] => destruct (string_dec c k)
         end; reflexivity.
Qed.

Lemma specified_base_values (c : string) :
  In (specified_base c) [3500; 4500; 5000; 2500; 2200; 20000; 30000; 3000].
Proof.
  unfold specified_base.
  repeat match goal with
         | |- context [string_dec c ?k] => destruct (string_dec c k)
         end; simpl; tauto.
Qed.

(** The modifier takes one of ten values. *)
Lemma yield_modifier_values (soil : option Soiltest)
    (obs : option Farmobservation) :
  In (yield_modifier soil obs) modifier_values.
Proof.
  unfold yield_modifier, modifier_values.
  destruct (ph_rule soil), (organic_rule soil), (rainfall_rule obs),
    (humidity_rule obs);
    repeat (first [left; reflexivity | right]).
Qed.

(** The product of a base yield and a modifier converts to an integer, which
    is never below 1540 nor above 31500. *)
Lemma forecast_value (base : Z) (m : float) :
  In base [3500; 4500; 5000; 2500; 2200; 20000; 30000; 3000] ->
  In m modifier_values ->
  exists y, int_of_float (float_of_int base * m)%float = Ok y /\
            1540 <= y <= 31500.
Proof.
  unfold modifier_values. simpl.
  intros Hbase Hm.
  repeat match type of Hbase with
         | _ \/ _ => destruct Hbase as [Hbase | Hbase]
         end; try contradiction; subst base;
  repeat match type of Hm with
         | _ \/ _ => destruct Hm as [Hm | Hm]
         end; try contradiction; subst m;
  (eexists; split; [vm_compute; reflexivity | lia]).
Qed.

(** The forecast returns for every input: the crop is the resolved one and
    the yield the truncated product of its base yield and the modifier. *)
Lemma simple_yield_forecast_returns (profile : option Farmerprofile)
    (soil : option Soiltest) (obs : option Farmobservation) :
  exists y,
    simple_yield_forecast profile soil obs =
      Ok {| crop := resolved_crop profile obs; yield_kg_per_ha := y |} /\
    int_of_float
      (float_of_int (specified_base (resolved_crop profile obs))
       * yield_modifier soil obs)%float = Ok y /\
    1540 <= y <= 31500.
Proof.
  unfold simple_yield_forecast.
  rewrite forecast_crop_resolved. cbn [bind].
  rewrite base_yield_table.
  destruct (forecast_value _ _
              (specified_base_values (resolved_crop profile obs))
              (yield_modifier_values soil obs)) as [y [Hy Hrange]].
  exists y. rewrite Hy. repeat split; try reflexivity; apply Hrange.
Qed.

(** The guards of the organic-matter and humidity rules change nothing: a
    zero passes neither threshold. *)
Lemma organic_rule_specified (soil : option Soiltest) :
  organic_rule soil =
  present_and (organic_matter_of soil) (fun x => ge x 2.0).
Proof.
  destruct soil as [s |]; [| reflexivity].
  unfold organic_rule, organic_matter_of.
  destruct (organic_matter_pct s) as [v |]; simpl; [| reflexivity].
  unfold truthy, ge.
  destruct (v =? 0)%float eqn:Hz; simpl; [| reflexivity].
  now rewrite (zero_not_ge v 2.0 Hz eq_refl).
Qed.

Lemma humidity_rule_specified (obs : option Farmobservation) :
  humidity_rule obs = present_and (humidity_of obs) (fun x => gt x 85).
Proof.
  destruct obs as [o |]; [| reflexivity].
  unfold humidity_rule, humidity_of.
  destruct (humidity_pct o) as [v |]; simpl; [| reflexivity].
  unfold truthy, gt.
  destruct (v =? 0)%float eqn:Hz; simpl; [| reflexivity].
  now rewrite (zero_not_gt v 85 Hz eq_refl).
Qed.

(** C1, where the source departs from it.  With soil pH 9.0 and humidity
    90 the two subtractions leave 0.7999999999999999, not 0.80, and the
    truncated wheat forecast is 2799, not 2800.  With a rainfall of 0.0 mm,
    present and below 10, the specified modifier is 0.9 and the source keeps
    1.0; with a pH of 0.0, present and outside [5.5, 8.5], the specified
    modifier is 0.85 and the source keeps 1.0: the guards take a zero for an
    absent value. *)
Theorem yield_modifier_departures :
  let alkaline := Some (soil_with (Some 9.0%float) None) in
  let humid := Some (observation_with None None (Some 90%float) None None) in
  let dry := Some (observation_with None None None (Some 0%float) None) in
  let acid := Some (soil_with (Some 0%float) None) in
  yield_modifier alkaline humid = 0.7999999999999999%float /\
  specified_modifier (ph_of alkaline) None None (humidity_of humid) =
    0.7999999999999999%float /\
  PrimFloat.eqb (yield_modifier alkaline humid) 0.8 = false /\
  simple_yield_forecast None alkaline humid =
    Ok {| crop := "wheat"; yield_kg_per_ha := 2799 |} /\
  present_and (rainfall_of dry) (fun x => lt x 10) = true /\
  specified_modifier None None (rainfall_of dry) None = 0.9%float /\
  yield_modifier None dry = 1.0%float /\
  simple_yield_forecast None None dry =
    Ok {| crop := "wheat"; yield_kg_per_ha := 3500 |} /\
  present_and (ph_of acid) (fun x => lt x 5.5 || gt x 8.5) = true /\
  specified_modifier (ph_of acid) None None None = 0.85%float /\
  yield_modifier acid None = 1.0%float.
Proof. cbv zeta. repeat split; vm_compute; reflexivity. Qed.

(** C4 as stated fails: an empty target crop is present, yet the source
    passes over it and resolves the crop from the history or to wheat. *)
Lemma empty_target_crop_not_used :
  ~ (forall profile obs,
       forecast_crop profile obs = Ok (specified_crop profile obs)).
Proof.
  intros H.
  specialize (H None
    (Some (observation_with (Some ""%string) None None None None))).
  vm_compute in H. discriminate H.
Qed.

(** C9 as stated fails: no soil test and observation make the modifier
    negative. *)
Lemma modifier_never_negative :
  ~ (exists soil obs, lt (yield_modifier soil obs) 0 = true).
Proof.
  intros [soil [obs H]].
  pose proof (yield_modifier_values soil obs) as Hin.
  unfold modifier_values in Hin. simpl in Hin.
  repeat match type of Hin with
         | _ \/ _ => destruct Hin as [Hin | Hin]
         end; try contradiction;
    rewrite <- Hin in H; vm_compute in H; discriminate H.
Qed.

(** C9, amended: the modifier is not clamped, but for every soil test and
    observation it lies between 0.7 and 1.05, so it is never negative, and
    the forecast yield is at least 1540. *)
Theorem modifier_and_yield_bounds (profile : option Farmerprofile)
    (soil : option Soiltest) (obs : option Farmobservation) :
  ge (yield_modifier soil obs) 0.7 = true /\
  le (yield_modifier soil obs) 1.05 = true /\
  exists forecast,
    simple_yield_forecast profile soil obs = Ok forecast /\
    1540 <= yield_kg_per_ha forecast.
Proof.
  assert (Hbounds : forall m, In m modifier_values ->
            ge m 0.7 = true /\ le m 1.05 = true).
  { unfold modifier_values. simpl. intros m Hm.
    repeat match type of Hm with
           | _ \/ _ => destruct Hm as [Hm | Hm]
           end; try contradiction; subst m; split; reflexivity. }
  destruct (Hbounds _ (yield_modifier_values soil obs)) as [Hlow Hhigh].
  split; [exact Hlow |]. split; [exact Hhigh |].
  destruct (simple_yield_forecast_returns profile soil obs)
    as [y [Hforecast [_ Hrange]]].
  eexists. split; [exact Hforecast | apply Hrange].
Qed.

End YieldForecaster.

(** ** The rotation planner *)

Section RotationPlanner.

Lemma last_crop_returns (profile : option Farmerprofile) :
  last_crop profile = Ok (option_map lower (last_history_entry profile)).
Proof.
  unfold last_crop, last_history_entry.
  destruct profile as [[? ? ? ? ? ? ? ? ? ? ? [[| x l] |] ?] |];
    try reflexivity.
  cbn [crop_history].
  destruct (last_item_nonempty l x) as [c [-> ->]]. reflexivity.
Qed.

(** The planner returns for every profile, with the specified list. *)
Lemma rotation_plan_returns (profile : option Farmerprofile) :
  rotation_plan profile =
  Ok (specified_rotation (option_map lower (last_history_entry profile))).
Proof.
  unfold rotation_plan. rewrite last_crop_returns. cbn [bind].
  unfold specified_rotation.
  destruct (option_map lower (last_history_entry profile)) as [c |];
    [| reflexivity].
  rewrite !opt_in_dec.
  destruct (in_dec string_dec c _); [reflexivity |].
  destruct (in_dec string_dec c _); reflexivity.
Qed.

(** C8: for every optional profile the planner lowercases the last entry of
    the crop history (none if the profile or the history is absent or empty)
    and returns exactly one of three fixed lists: the legume, oilseed,
    vegetable list after rice, wheat or maize, the pulse, cereal, forage list
    after cotton or sugarcane, the generic list otherwise; a history of
    ["Maize"] gives the first list. *)
Theorem rotation_plan_specified (profile : option Farmerprofile) :
  let last := option_map lower (last_history_entry profile) in
  rotation_plan profile = Ok (specified_rotation last) /\
  (specified_rotation last = cereal_successors \/
   specified_rotation last = fibre_successors \/
   specified_rotation last = generic_rotation) /\
  last_history_entry None = None /\
  last_history_entry (Some (profile_with None None None None)) = None /\
  last_history_entry (Some (profile_with None None None (Some []))) = None /\
  rotation_plan (Some (profile_with None None None (Some ["Maize"]))) =
    Ok ["legume (soybean/chickpea)"; "oilseed (mustard/sunflower)";
        "vegetable (tomato/onion)"].
Proof.
  cbv zeta. split; [apply rotation_plan_returns |]. split.
  - unfold specified_rotation.
    destruct (option_map lower (last_history_entry profile)) as [c |];
      [| right; right; reflexivity].
    destruct (in_dec string_dec c _); [left; reflexivity |].
    destruct (in_dec string_dec c _); [right; left | right; right];
      reflexivity.
  - repeat split; reflexivity.
Qed.

End RotationPlanner.

(** ** The engine on absent inputs *)

Section AbsentInputs.

Local Open Scope Z_scope.

(** C5: with no profile, no soil test and an observation whose optional
    fields are all absent, the state [analyze] reaches when the farmer
    matches no stored record, every engine function returns a complete
    result: the rules whose field is absent are skipped and the defaults
    stand.  The two functions that index a list or convert a float return
    for every input. *)
Theorem engine_on_absent_inputs :
  simple_disease_pest_risk default_observation =
    {| disease := [("fungal_general", "low")]; pest := [] |} /\
  irrigation_schedule None None (Some default_observation) =
    {| frequency_days := 3; amount_mm := 20; schedule_notes := [] |} /\
  climate_advice None (Some default_observation) =
    [mulching_tip; ipm_tip] /\
  simple_yield_forecast None None (Some default_observation) =
    Ok {| crop := "wheat"; yield_kg_per_ha := 3500 |} /\
  rotation_plan None = Ok ["cereal"; "legume"; "vegetable"] /\
  market_trends None None =
    [ {| trend_crop := "wheat"; avg_price := 21.5; unit := "INR/kg";
         demand := "rising"; location := None |};
      {| trend_crop := "tomato"; avg_price := 14.2; unit := "INR/kg";
         demand := "stable"; location := None |};
      {| trend_crop := "onion"; avg_price := 18.7; unit := "INR/kg";
         demand := "high"; location := None |} ] /\
  (forall req_farmer_id,
     exists result,
       analyze_engine req_farmer_id None None None None = Ok result /\
       disease_risk result = [("fungal_general", "low")] /\
       pest_risk result = [] /\
       frequency_days (result_irrigation_schedule result) = 3 /\
       amount_mm (result_irrigation_schedule result) = 20 /\
       result_climate_advice result = [mulching_tip; ipm_tip] /\
       yield_forecast result =
         {| crop := "wheat"; yield_kg_per_ha := 3500 |} /\
       result_rotation_plan result = generic_rotation /\
       length (result_market_trends result) = 3%nat) /\
  (forall profile soil obs,
     succeeds (simple_yield_forecast profile soil obs)) /\
  (forall profile, succeeds (rotation_plan profile)).
Proof.
  repeat split; try (vm_compute; reflexivity).
  - intros req_farmer_id. eexists. split; [reflexivity |].
    repeat split; vm_compute; reflexivity.
  - intros profile soil obs.
    destruct (simple_yield_forecast_returns profile soil obs)
      as [y [Hforecast _]].
    eexists. exact Hforecast.
  - intros profile. eexists. apply rotation_plan_returns.
Qed.

End AbsentInputs.

(** ** Chains of float comparisons *)

Module FloatChains.

Import FloatOrder.
Local Open Scope float_scope.

Ltac order_cases :=
  repeat match goal with
         | |- context [(?a ?= ?b)%Z] => destruct (Z.compare_spec a b)
         | |- context [(?a ?= ?b)%positive] => destruct (Pos.compare_spec a b)
         end.

Ltac close_chain :=
  intros _ _; split; [reflexivity |];
  intros [H | H]; (reflexivity || discriminate H).

(** The comparison of decoded floats is transitive, strictly as soon as one
    of the two steps is strict. *)
Lemma SFcompare_trans (x y z : spec_float) :
  below (SFcompare x y) = true -> below (SFcompare y z) = true ->
  below (SFcompare x z) = true /\
  (strictly_below (SFcompare x y) = true \/
   strictly_below (SFcompare y z) = true ->
   strictly_below (SFcompare x z) = true).
Proof.
  destruct x as [sx | sx | | sx mx ex], y as [sy | sy | | sy my ey],
    z as [sz | sz | | sz mz ez]; simpl; try discriminate;
    try (destruct sx); try (destruct sy); try (destruct sz);
    simpl; try discriminate; try close_chain.
  all: change (PosDef.Pos.compare_cont Eq ?a ?b) with (Pos.compare a b).
  all: order_cases; simpl; try discriminate; try lia; try close_chain.
Qed.

Lemma leb_below (x y : float) :
  (x <=? y) = below (SFcompare (Prim2SF x) (Prim2SF y)).
Proof. rewrite FloatAxioms.leb_spec. reflexivity. Qed.

Lemma ltb_strictly_below (x y : float) :
  (x <? y) = strictly_below (SFcompare (Prim2SF x) (Prim2SF y)).
Proof. rewrite FloatAxioms.ltb_spec. reflexivity. Qed.

Lemma ltb_leb (x y : float) : (x <? y) = true -> (x <=? y) = true.
Proof.
  rewrite ltb_strictly_below, leb_below.
  destruct (SFcompare _ _) as [[ | | ] |]; simpl; congruence.
Qed.

Lemma leb_trans (x y z : float) :
  (x <=? y) = true -> (y <=? z) = true -> (x <=? z) = true.
Proof.
  rewrite !leb_below. intros Hxy Hyz.
  apply (SFcompare_trans _ _ _ Hxy Hyz).
Qed.

Lemma ltb_leb_trans (x y z : float) :
  (x <? y) = true -> (y <=? z) = true -> (x <? z) = true.
Proof.
  intros Hxy Hyz. pose proof (ltb_leb _ _ Hxy) as Hle.
  rewrite ltb_strictly_below in *. rewrite leb_below in *.
  apply (SFcompare_trans _ _ _ Hle Hyz). now left.
Qed.

Lemma leb_ltb_trans (x y z : float) :
  (x <=? y) = true -> (y <? z) = true -> (x <? z) = true.
Proof.
  intros Hxy Hyz. pose proof (ltb_leb _ _ Hyz) as Hle.
  rewrite ltb_strictly_below in *. rewrite leb_below in *.
  apply (SFcompare_trans _ _ _ Hxy Hle). now right.
Qed.

Lemma ltb_trans (x y z : float) :
  (x <? y) = true -> (y <? z) = true -> (x <? z) = true.
Proof.
  intros Hxy Hyz. apply (ltb_leb_trans x y z Hxy). now apply ltb_leb.
Qed.

(** Above zero is at least zero and not a zero. *)
Lemma positive_iff (x : float) :
  (0 <? x) = (0 <=? x) && negb (x =? 0).
Proof.
  rewrite FloatAxioms.ltb_spec, FloatAxioms.leb_spec, FloatAxioms.eqb_spec.
  unfold SFltb, SFleb, SFeqb.
  rewrite (SFcompare_antisym (Prim2SF 0) (Prim2SF x)).
  destruct (SFcompare (Prim2SF 0) (Prim2SF x)) as [[ | | ] |];
    reflexivity.
Qed.

End FloatChains.

(** ** The risk maps in full *)

Section RiskMaps.

Import FloatOrder FloatChains.
Local Open Scope float_scope.

(** The disease map, entry by entry in insertion order. *)
Lemma disease_map (obs : Farmobservation) :
  disease (simple_disease_pest_risk obs) =
  [("fungal_general"%string,
    (if opt_and (humidity_pct obs) (fun v => ge v 80) then "high"
     else if opt_and (humidity_pct obs) (fun v => ge v 60) then "medium"
     else "low")%string)]
  ++ (if opt_and (rainfall_mm obs) (fun r => gt r 50)
      then [("washout_root_rot", "medium")]%string else [])
  ++ (if opt_list_and (disease_signs obs) (fun l => Nat.ltb 0 (length l))
      then [("observed_signs", "high")]%string else []).
Proof.
  unfold simple_disease_pest_risk.
  destruct (opt_and (humidity_pct obs) (fun h => ge h 80));
    [| destruct (opt_and (humidity_pct obs) (fun h => ge h 60))];
    destruct (opt_and (temp_c obs) (fun t => ge t 28));
    destruct (opt_and (temp_c obs) (fun t => ge t 32));
    destruct (opt_and (rainfall_mm obs) (fun r => gt r 50));
    destruct (opt_list_and (pest_signs obs) _);
    destruct (opt_list_and (disease_signs obs) _);
    reflexivity.
Qed.

(** The pest map, entry by entry in insertion order. *)
Lemma pest_map (obs : Farmobservation) :
  pest (simple_disease_pest_risk obs) =
  (if opt_and (temp_c obs) (fun t => ge t 32)
   then [("borers_aphids_general", "high")]%string
   else if opt_and (temp_c obs) (fun t => ge t 28)
   then [("borers_aphids_general", "medium")]%string
   else [])
  ++ (if opt_list_and (pest_signs obs) (fun l => Nat.ltb 0 (length l))
      then [("observed_signs", "high")]%string else []).
Proof.
  unfold simple_disease_pest_risk.
  destruct (opt_and (humidity_pct obs) (fun h => ge h 80));
    [| destruct (opt_and (humidity_pct obs) (fun h => ge h 60))];
    destruct (opt_and (temp_c obs) (fun t => ge t 28));
    destruct (opt_and (temp_c obs) (fun t => ge t 32));
    destruct (opt_and (rainfall_mm obs) (fun r => gt r 50));
    destruct (opt_list_and (pest_signs obs) _);
    destruct (opt_list_and (disease_signs obs) _);
    reflexivity.
Qed.

(** The guard of a threshold test changes nothing when the threshold is
    positive. *)
Lemma at_least_guard (x : option float) (c : float) :
  (0 <? c) = true ->
  opt_and x (fun v => ge v c) = present_and x (fun v => ge v c).
Proof.
  intros Hc. destruct x as [v |]; simpl; [| reflexivity].
  unfold truthy, ge.
  destruct (v =? 0) eqn:Hz; simpl; [| reflexivity].
  now rewrite (zero_not_ge v c Hz Hc).
Qed.

Lemma signs_guard (l : option (list string)) :
  opt_list_and l (fun l => Nat.ltb 0 (length l)) =
  match signs_level l with Some _ => true | None => false end.
Proof. destruct l as [[| x t] |]; reflexivity. Qed.

(** X1: the temperature rules leave "high" under "borers_aphids_general"
    when the temperature is present and at least 32, "medium" when it is
    present and in [28, 32), and no entry otherwise. *)
Theorem pest_temperature_entry (obs : Farmobservation) :
  dict_get (pest (simple_disease_pest_risk obs)) "borers_aphids_general" =
  pest_level (temp_c obs).
Proof.
  rewrite pest_map, signs_guard.
  rewrite (at_least_guard _ 32 eq_refl), (at_least_guard _ 28 eq_refl).
  unfold pest_level.
  destruct (temp_c obs) as [t |]; simpl.
  - unfold ge, lt.
    destruct (32 <=? t) eqn:H32.
    + destruct (signs_level (pest_signs obs)); reflexivity.
    + destruct (28 <=? t) eqn:H28; simpl.
      * destruct (leb_is_number _ _ H28) as [_ Ht].
        rewrite (not_leb_ltb t 32 Ht eq_refl H32).
        destruct (signs_level (pest_signs obs)); reflexivity.
      * destruct (signs_level (pest_signs obs)); reflexivity.
  - destruct (signs_level (pest_signs obs)); reflexivity.
Qed.

(** X2: "washout_root_rot" is "medium" exactly when rainfall is present and
    above 50, and missing otherwise, whatever the other fields. *)
Theorem washout_entry (obs : Farmobservation) :
  dict_get (disease (simple_disease_pest_risk obs)) "washout_root_rot" =
  washout_level (rainfall_mm obs).
Proof.
  rewrite disease_map, signs_guard, (above_guard _ 50 eq_refl).
  unfold washout_level.
  destruct (present_and (rainfall_mm obs) _);
    destruct (signs_level (disease_signs obs)); reflexivity.
Qed.

(** X3: "observed_signs" is "high" in the pest map exactly when the list of
    pest signs is present and not empty, and in the disease map exactly when
    the list of disease signs is; it is missing otherwise. *)
Theorem observed_signs_entries (obs : Farmobservation) :
  dict_get (pest (simple_disease_pest_risk obs)) "observed_signs" =
    signs_level (pest_signs obs) /\
  dict_get (disease (simple_disease_pest_risk obs)) "observed_signs" =
    signs_level (disease_signs obs).
Proof.
  rewrite pest_map, disease_map. split.
  - destruct (opt_and (temp_c obs) (fun t => ge t 32));
      [| destruct (opt_and (temp_c obs) (fun t => ge t 28))];
      destruct (pest_signs obs) as [[| x t] |]; reflexivity.
  - destruct (opt_and (humidity_pct obs) (fun v => ge v 80));
      [| destruct (opt_and (humidity_pct obs) (fun v => ge v 60))];
      destruct (opt_and (rainfall_mm obs) _);
      destruct (disease_signs obs) as [[| x t] |]; reflexivity.
Qed.

(** X4: in both maps every severity is "low", "medium" or "high" and no key
    occurs twice; the disease map has between one and three entries, the
    first of them "fungal_general", the pest map at most two. *)
Theorem risk_maps_invariant (obs : Farmobservation) :
  let risk := simple_disease_pest_risk obs in
  Forall (fun entry => In (snd entry) severities) (disease risk) /\
  Forall (fun entry => In (snd entry) severities) (pest risk) /\
  NoDup (map fst (disease risk)) /\
  NoDup (map fst (pest risk)) /\
  (1 <= length (disease risk) <= 3)%nat /\
  (length (pest risk) <= 2)%nat /\
  option_map fst (hd_error (disease risk)) = Some "fungal_general"%string.
Proof.
  cbv zeta. rewrite pest_map, disease_map.
  destruct (opt_and (humidity_pct obs) (fun v => ge v 80));
    [| destruct (opt_and (humidity_pct obs) (fun v => ge v 60))];
    (destruct (opt_and (temp_c obs) (fun t => ge t 32));
      [| destruct (opt_and (temp_c obs) (fun t => ge t 28))]);
    destruct (opt_and (rainfall_mm obs) _);
    destruct (opt_list_and (pest_signs obs) _);
    destruct (opt_list_and (disease_signs obs) _);
    simpl; unfold severities;
    repeat split;
    repeat (constructor; simpl; try tauto; try lia);
    try (intros H; repeat destruct H as [H | H]; try discriminate H;
         try contradiction).
Qed.

(** X5: the disease map depends on the humidity, the rainfall and the
    disease signs only. *)
Theorem disease_map_inputs (obs1 obs2 : Farmobservation) :
  humidity_pct obs1 = humidity_pct obs2 ->
  rainfall_mm obs1 = rainfall_mm obs2 ->
  disease_signs obs1 = disease_signs obs2 ->
  disease (simple_disease_pest_risk obs1) =
  disease (simple_disease_pest_risk obs2).
Proof.
  intros Hh Hr Hs. rewrite !disease_map. now rewrite Hh, Hr, Hs.
Qed.

Lemma disease_map_inputs_witness :
  let obs1 :=
    observation_with None (Some 20) (Some 70) (Some 60) None in
  let obs2 :=
    observation_with (Some "rice"%string) (Some 40) (Some 70) (Some 60)
      (Some 45) in
  disease (simple_disease_pest_risk obs1) =
  disease (simple_disease_pest_risk obs2).
Proof.
  cbv zeta.
  apply (disease_map_inputs
           (observation_with None (Some 20) (Some 70) (Some 60) None)
           (observation_with (Some "rice"%string) (Some 40) (Some 70)
              (Some 60) (Some 45))
           eq_refl eq_refl eq_refl).
Defined.

(** X6: the pest map depends on the temperature and the pest signs only. *)
Theorem pest_map_inputs (obs1 obs2 : Farmobservation) :
  temp_c obs1 = temp_c obs2 ->
  pest_signs obs1 = pest_signs obs2 ->
  pest (simple_disease_pest_risk obs1) = pest (simple_disease_pest_risk obs2).
Proof.
  intros Ht Hs. rewrite !pest_map. now rewrite Ht, Hs.
Qed.

Lemma pest_map_inputs_witness :
  let obs1 :=
    observation_with None (Some 30) (Some 70) (Some 60) None in
  let obs2 :=
    observation_with (Some "rice"%string) (Some 30) (Some 95) None
      (Some 45) in
  pest (simple_disease_pest_risk obs1) = pest (simple_disease_pest_risk obs2).
Proof.
  cbv zeta.
  apply (pest_map_inputs
           (observation_with None (Some 30) (Some 70) (Some 60) None)
           (observation_with (Some "rice"%string) (Some 30) (Some 95) None
              (Some 45))
           eq_refl eq_refl).
Defined.

End RiskMaps.

(** ** The climate advice in full *)

Section ClimateAdviceShape.

Import FloatOrder FloatChains.
Local Open Scope float_scope.

(** No temperature is above 35 and below 10. *)
Lemma heat_excludes_cold (t : option float) :
  present_and t (fun v => gt v 35) = true ->
  opt_and t (fun v => lt v 10) = false.
Proof.
  destruct t as [v |]; simpl; [| discriminate].
  unfold gt, lt. intros Hheat.
  destruct (v <? 10) eqn:Hcold; [| apply andb_false_r].
  pose proof (ltb_trans 35 v 10 Hheat Hcold) as Habsurd.
  vm_compute in Habsurd. discriminate Habsurd.
Qed.

Ltac tip_cases :=
  repeat match goal with
         | |- context [if ?b then _ else _] => destruct b
         end.

Ltac not_among H :=
  vm_compute in H;
  repeat match type of H with
         | _ \/ _ => destruct H as [H | H]
         end;
  try discriminate H; try contradiction.

(** X7: each conditional tip is in the advice exactly on its condition: the
    forest tip when the surrounding environment is present and contains
    "forest", the wind tip when the wind is present and above 30, the heat
    tip when the temperature is present and above 35, and the cold tip when
    the temperature is present, not a zero, and below 10. *)
Theorem climate_advice_membership (profile : option Farmerprofile)
    (obs : option Farmobservation) :
  let tips := climate_advice profile obs in
  (In forest_tip tips <->
   match surrounding_env_of profile with
   | Some e => contains "forest" e
   | None => false
   end = true) /\
  (In wind_tip tips <->
   present_and (wind_of obs) (fun w => gt w 30) = true) /\
  (In heat_tip tips <->
   present_and (temp_of obs) (fun t => gt t 35) = true) /\
  (In cold_tip tips <->
   present_and (temp_of obs) (fun t => truthy t && lt t 10) = true).
Proof.
  cbv zeta. rewrite climate_advice_guarded.
  replace (present_and (temp_of obs) (fun t => truthy t && lt t 10))
    with (opt_and (temp_of obs) (fun t => lt t 10))
    by (destruct (temp_of obs); reflexivity).
  destruct (match surrounding_env_of profile with
            | Some e => contains "forest" e
            | None => false
            end);
    destruct (present_and (wind_of obs) _);
    destruct (present_and (temp_of obs) _);
    destruct (opt_and (temp_of obs) _);
    repeat split; intros H; try reflexivity; try discriminate H;
    try (vm_compute; tauto); not_among H.
Qed.

(** X8: the advice always ends with the mulching tip and the pest
    management tip, has between two and five entries, and never holds both
    the heat tip and the cold tip. *)
Theorem climate_advice_shape (profile : option Farmerprofile)
    (obs : option Farmobservation) :
  let tips := climate_advice profile obs in
  skipn (length tips - 2) tips = [mulching_tip; ipm_tip] /\
  (2 <= length tips <= 5)%nat /\
  ~ (In heat_tip tips /\ In cold_tip tips).
Proof.
  cbv zeta. rewrite climate_advice_guarded.
  pose proof (heat_excludes_cold (temp_of obs)) as Hexclusive.
  destruct (match surrounding_env_of profile with
            | Some e => contains "forest" e
            | None => false
            end);
    destruct (present_and (wind_of obs) _);
    destruct (present_and (temp_of obs) _);
    destruct (opt_and (temp_of obs) _);
    try (specialize (Hexclusive eq_refl); discriminate Hexclusive);
    (split; [reflexivity |]); (split; [simpl; lia |]);
    intros [Hheat Hcold];
    first [solve [not_among Hheat] | solve [not_among Hcold]].
Qed.

End ClimateAdviceShape.

(** ** The yield forecast in full *)

Section YieldForecastShape.

Import FloatOrder FloatChains.
Local Open Scope float_scope.
Local Open Scope Z_scope.

Lemma lower_ascii_idempotent (c : ascii) :
  lower_ascii (lower_ascii c) = lower_ascii c.
Proof.
  destruct c as [[] [] [] [] [] [] [] []]; reflexivity.
Qed.

Lemma lower_idempotent (s : string) : lower (lower s) = lower s.
Proof.
  induction s as [| c t IH]; simpl; [reflexivity |].
  now rewrite lower_ascii_idempotent, IH.
Qed.

(** X11: whenever the modifier is 1.0 (no rule fires, or the organic-matter
    bonus and the humidity penalty cancel), the forecast is exactly the
    base yield of the crop. *)
Theorem forecast_at_unit_modifier (profile : option Farmerprofile)
    (soil : option Soiltest) (obs : option Farmobservation) :
  yield_modifier soil obs = 1.0%float ->
  simple_yield_forecast profile soil obs =
    Ok {| crop := resolved_crop profile obs;
          yield_kg_per_ha := specified_base (resolved_crop profile obs) |}.
Proof.
  intros Hunit.
  destruct (simple_yield_forecast_returns profile soil obs)
    as [y [Hforecast [Hvalue _]]].
  rewrite Hforecast. rewrite Hunit in Hvalue.
  pose proof (specified_base_values (resolved_crop profile obs)) as Hbase.
  simpl in Hbase.
  repeat match type of Hbase with
         | _ \/ _ => destruct Hbase as [Hbase | Hbase]
         end; try contradiction;
    rewrite <- Hbase in Hvalue |- *; vm_compute in Hvalue; congruence.
Qed.

Lemma forecast_at_unit_modifier_witness :
  simple_yield_forecast
    (Some (profile_with None None None (Some ["Potato"]%string)))
    (Some (soil_with (Some 6.5%float) (Some 3.0%float)))
    (Some (observation_with None None (Some 90%float) (Some 12%float) None)) =
  Ok {| crop := "potato"; yield_kg_per_ha := 20000 |}.
Proof.
  apply (forecast_at_unit_modifier
           (Some (profile_with None None None (Some ["Potato"]%string)))
           (Some (soil_with (Some 6.5%float) (Some 3.0%float)))
           (Some (observation_with None None (Some 90%float)
                    (Some 12%float) None))).
  vm_compute. reflexivity.
Defined.

(** The truncated product stays within 70 and 105 percent of the base. *)
Lemma forecast_value_relative (base : Z) (m : float) (y : Z) :
  In base [3500; 4500; 5000; 2500; 2200; 20000; 30000; 3000] ->
  In m modifier_values ->
  int_of_float (float_of_int base * m)%float = Ok y ->
  70 * base <= 100 * y <= 105 * base.
Proof.
  unfold modifier_values. simpl.
  intros Hbase Hm.
  repeat match type of Hbase with
         | _ \/ _ => destruct Hbase as [Hbase | Hbase]
         end; try contradiction; subst base;
  repeat match type of Hm with
         | _ \/ _ => destruct Hm as [Hm | Hm]
         end; try contradiction; subst m;
  intros Hy; vm_compute in Hy; injection Hy as <-; lia.
Qed.

(** X12: for every input the forecast yield lies between 70 and 105 percent
    of the base yield of the crop. *)
Theorem forecast_relative_bounds (profile : option Farmerprofile)
    (soil : option Soiltest) (obs : option Farmobservation) :
  exists y,
    simple_yield_forecast profile soil obs =
      Ok {| crop := resolved_crop profile obs; yield_kg_per_ha := y |} /\
    70 * specified_base (resolved_crop profile obs) <= 100 * y /\
    100 * y <= 105 * specified_base (resolved_crop profile obs).
Proof.
  destruct (simple_yield_forecast_returns profile soil obs)
    as [y [Hforecast [Hvalue _]]].
  exists y. split; [exact Hforecast |].
  apply (forecast_value_relative _ _ _
           (specified_base_values (resolved_crop profile obs))
           (yield_modifier_values soil obs) Hvalue).
Qed.

(** X13: the truth-value guards leave the organic-matter and humidity rules
    as they read: the bonus applies exactly when organic matter is present
    and at least 2.0, the penalty exactly when humidity is present and above
    85; a zero passes neither threshold. *)
Theorem organic_and_humidity_rules (soil : option Soiltest)
    (obs : option Farmobservation) :
  organic_rule soil =
    present_and (organic_matter_of soil) (fun x => ge x 2.0) /\
  humidity_rule obs = present_and (humidity_of obs) (fun x => gt x 85).
Proof.
  split; [apply organic_rule_specified | apply humidity_rule_specified].
Qed.

Lemma validated_nonzero (x : option float) (v : float) :
  x = Some v -> field_ge x 0 = true -> truthy v = gt v 0.
Proof.
  intros -> Hge. unfold field_ge, ge in Hge. unfold truthy, gt.
  now rewrite positive_iff, Hge.
Qed.

(** X14: on validated records (pH and rainfall not below zero) the pH
    penalty applies exactly when pH is present and either strictly between
    0 and 5.5 or above 8.5, and the rainfall penalty exactly when rainfall
    is present and strictly between 0 and 10: a pH or a rainfall of zero is
    exempt. *)
Theorem validated_zero_exemptions (soil : Soiltest) (obs : Farmobservation) :
  Soiltest_valid soil = true ->
  Farmobservation_valid obs = true ->
  ph_rule (Some soil) =
    present_and (ph soil)
      (fun x => (gt x 0 && lt x 5.5) || gt x 8.5) /\
  rainfall_rule (Some obs) =
    present_and (rainfall_mm obs) (fun x => gt x 0 && lt x 10) /\
  ph_rule (Some (soil_with (Some 0%float) None)) = false /\
  rainfall_rule (Some (observation_with None None None (Some 0%float) None)) =
    false.
Proof.
  unfold Soiltest_valid, Farmobservation_valid.
  intros Hsoil Hobs.
  repeat rewrite andb_true_iff in Hsoil.
  repeat rewrite andb_true_iff in Hobs.
  destruct Hsoil as [[[[[[[Hph _] _] _] _] _] _] _].
  destruct Hobs as [[[_ _] Hrain] _].
  repeat split; try reflexivity.
  - unfold ph_rule.
    destruct (ph soil) as [v |] eqn:Ev; simpl; [| reflexivity].
    rewrite <- Ev in Hph.
    rewrite (validated_nonzero _ v Ev Hph).
    unfold gt, lt.
    destruct (0 <? v)%float eqn:Hpos; simpl; [reflexivity |].
    destruct (8.5 <? v)%float eqn:Hhigh; [| reflexivity].
    pose proof (ltb_trans 0 8.5 v eq_refl Hhigh). congruence.
  - unfold rainfall_rule.
    destruct (rainfall_mm obs) as [v |] eqn:Ev; simpl; [| reflexivity].
    rewrite <- Ev in Hrain.
    now rewrite (validated_nonzero _ v Ev Hrain).
Qed.

Lemma validated_zero_exemptions_witness :
  let soil := soil_with (Some 4.5%float) (Some 1.0%float) in
  let obs := observation_with None None (Some 50%float) (Some 3%float) None in
  ph_rule (Some soil) = true /\ rainfall_rule (Some obs) = true.
Proof.
  cbv zeta.
  destruct (validated_zero_exemptions
              (soil_with (Some 4.5%float) (Some 1.0%float))
              (observation_with None None (Some 50%float) (Some 3%float)
                 None)
              eq_refl eq_refl) as [Hph [Hrain _]].
  split; [rewrite Hph | rewrite Hrain]; reflexivity.
Defined.

End YieldForecastShape.

(** ** Rotation, orchestration and collections *)

Section Orchestration.

Import FloatOrder FloatChains.
Local Open Scope float_scope.
Local Open Scope Z_scope.

Lemma last_history_entry_app (p : Farmerprofile) (h : list string)
    (c : string) :
  last_history_entry (Some (with_crop_history p (Some (h ++ [c])))) = Some c.
Proof.
  unfold last_history_entry. cbn [with_crop_history crop_history].
  rewrite map_app. apply last_last.
Qed.

(** X15: the plan has three entries for every profile, and it is decided by
    the last entry of the history alone, whatever its case: a history
    [h ++ [c]] gives the plan of the single lowercased crop. *)
Theorem rotation_plan_last_entry_only (p : Farmerprofile) (h : list string)
    (c : string) :
  (exists plan, rotation_plan (Some p) = Ok plan /\ length plan = 3%nat) /\
  rotation_plan (Some (with_crop_history p (Some (h ++ [c])))) =
    Ok (specified_rotation (Some (lower c))) /\
  rotation_plan (Some (with_crop_history p (Some (h ++ [c])))) =
    rotation_plan (Some (with_crop_history p (Some [lower c]))).
Proof.
  split; [| split].
  - rewrite rotation_plan_returns. eexists. split; [reflexivity |].
    unfold specified_rotation.
    destruct (option_map lower (last_history_entry (Some p))) as [last |];
      [| reflexivity].
    destruct (in_dec string_dec last _); [reflexivity |].
    destruct (in_dec string_dec last _); reflexivity.
  - now rewrite rotation_plan_returns, last_history_entry_app.
  - rewrite !rotation_plan_returns.
    rewrite last_history_entry_app.
    pose proof (last_history_entry_app p [] (lower c)) as Hsingle.
    cbn [app] in Hsingle. rewrite Hsingle.
    cbn [option_map]. now rewrite lower_idempotent.
Qed.

Lemma analyze_observation_crop (req_target_crop : option string)
    (obs : Farmobservation) :
  target_crop (if nonempty_str req_target_crop
               then set_target_crop obs req_target_crop else obs) =
  if nonempty_str req_target_crop then req_target_crop else target_crop obs.
Proof. destruct (nonempty_str req_target_crop); reflexivity. Qed.

(** X16: the engine part of [analyze] returns for every request and every
    combination of stored records; the result echoes the farmer id and its
    target crop is the requested one when that is a non-empty string, else
    the one of the stored observation, else absent. *)
Theorem analyze_engine_returns (req_farmer_id req_target_crop : option string)
    (profile : option Farmerprofile) (soil : option Soiltest)
    (obs_doc : option Farmobservation) :
  exists result,
    analyze_engine req_farmer_id req_target_crop profile soil obs_doc =
      Ok result /\
    result_farmer_id result = req_farmer_id /\
    result_target_crop result =
      (if nonempty_str req_target_crop then req_target_crop
       else target_crop_of obs_doc) /\
    length (result_rotation_plan result) = 3%nat /\
    length (result_market_trends result) = 3%nat.
Proof.
  unfold analyze_engine.
  set (stored := match obs_doc with
                 | Some o => o
                 | None => default_observation
                 end).
  set (obs := if nonempty_str req_target_crop
              then set_target_crop stored req_target_crop else stored).
  destruct (simple_yield_forecast_returns profile soil (Some obs))
    as [y [-> _]].
  rewrite rotation_plan_returns. cbn [bind].
  eexists. split; [reflexivity |]. cbn.
  split; [reflexivity |]. split.
  - unfold obs. rewrite analyze_observation_crop.
    destruct (nonempty_str req_target_crop); [reflexivity |].
    unfold stored. destruct obs_doc; reflexivity.
  - split; [| reflexivity].
    unfold specified_rotation.
    destruct (option_map lower (last_history_entry profile)) as [last |];
      [| reflexivity].
    destruct (in_dec string_dec last _); [reflexivity |].
    destruct (in_dec string_dec last _); reflexivity.
Qed.

(** X18: whenever the humidity penalty of the forecast applies, the fungal
    risk of the same observation is "high". *)
Theorem humidity_penalty_means_high_fungal_risk (obs : Farmobservation) :
  humidity_rule (Some obs) = true ->
  dict_get (disease (simple_disease_pest_risk obs)) "fungal_general" =
    Some "high"%string.
Proof.
  unfold humidity_rule. intros Hpenalty.
  rewrite fungal_entry.
  destruct (humidity_pct obs) as [h |]; simpl in *; [| discriminate].
  apply andb_prop in Hpenalty. destruct Hpenalty as [Htruthy Habove].
  rewrite Htruthy. unfold gt in Habove. unfold ge.
  rewrite (leb_trans 80 85 h eq_refl (ltb_leb _ _ Habove)).
  reflexivity.
Qed.

Lemma humidity_penalty_means_high_fungal_risk_witness :
  dict_get
    (disease (simple_disease_pest_risk
                (observation_with None None (Some 90%float) None None)))
    "fungal_general" = Some "high"%string.
Proof.
  apply (humidity_penalty_means_high_fungal_risk
           (observation_with None None (Some 90%float) None None)).
  reflexivity.
Defined.

(** X19: whenever the risk estimator reports a washout risk, the irrigation
    schedule for the same observation carries the rainfall note. *)
Theorem washout_risk_means_rainfall_note (profile : option Farmerprofile)
    (soil : option Soiltest) (obs : Farmobservation) :
  dict_get (disease (simple_disease_pest_risk obs)) "washout_root_rot" =
    Some "medium"%string ->
  In rainfall_note
    (schedule_notes (irrigation_schedule profile soil (Some obs))).
Proof.
  rewrite disease_map, (above_guard _ 50 eq_refl).
  intros Hwashout.
  assert (Hheavy : present_and (rainfall_mm obs) (fun r => gt r 50) = true).
  { destruct (present_and (rainfall_mm obs) (fun r => gt r 50));
      [reflexivity |].
    destruct (opt_and (humidity_pct obs) (fun v => ge v 80));
      [| destruct (opt_and (humidity_pct obs) (fun v => ge v 60))];
      destruct (opt_list_and (disease_signs obs) _);
      discriminate Hwashout. }
  rewrite irrigation_schedule_specified. unfold specified_schedule.
  cbn [rainfall_of].
  assert (Hnote : present_and (rainfall_mm obs) (fun r => ge r 15) = true).
  { destruct (rainfall_mm obs) as [r |]; simpl in *; [| discriminate].
    unfold gt in Hheavy. unfold ge.
    apply (leb_trans 15 50 r eq_refl (ltb_leb _ _ Hheavy)). }
  rewrite Hnote.
  destruct (classify_soil (soil_type_of profile)); cbn [schedule_notes];
    apply in_or_app; right; apply in_or_app; left; now left.
Qed.

Lemma washout_risk_means_rainfall_note_witness :
  In rainfall_note
    (schedule_notes
       (irrigation_schedule None None
          (Some (observation_with None None None (Some 60%float) None)))).
Proof.
  apply (washout_risk_means_rainfall_note None None
           (observation_with None None None (Some 60%float) None)).
  reflexivity.
Defined.

(** X20: the rainfall note of the schedule and the low-rainfall penalty of
    the forecast never come together. *)
Theorem rainfall_note_excludes_penalty (profile : option Farmerprofile)
    (soil : option Soiltest) (obs : Farmobservation) :
  In rainfall_note
    (schedule_notes (irrigation_schedule profile soil (Some obs))) ->
  rainfall_rule (Some obs) = false.
Proof.
  rewrite irrigation_schedule_specified. unfold specified_schedule.
  cbn [rainfall_of]. intros Hnote.
  assert (Hwet : present_and (rainfall_mm obs) (fun r => ge r 15) = true).
  { destruct (present_and (rainfall_mm obs) (fun r => ge r 15));
      [reflexivity |].
    destruct (classify_soil (soil_type_of profile));
      destruct (uses_drip (irrigation_method_of profile));
      vm_compute in Hnote;
      repeat match type of Hnote with
             | _ \/ _ => destruct Hnote as [Hnote | Hnote]
             end; try discriminate Hnote; contradiction. }
  unfold rainfall_rule.
  destruct (rainfall_mm obs) as [r |]; simpl in *; [| discriminate].
  unfold ge in Hwet. unfold lt.
  destruct (r <? 10)%float eqn:Hdry; [| apply andb_false_r].
  pose proof (leb_ltb_trans 15 r 10 Hwet Hdry) as Habsurd.
  vm_compute in Habsurd. discriminate Habsurd.
Qed.

Lemma rainfall_note_excludes_penalty_witness :
  rainfall_rule
    (Some (observation_with None None None (Some 20%float) None)) = false.
Proof.
  apply (rainfall_note_excludes_penalty None None
           (observation_with None None None (Some 20%float) None)).
  vm_compute. tauto.
Defined.

(** X21: [collection_name] gives each record class the collection its
    docstring names, and the four collections are distinct. *)
Theorem collection_names_documented :
  (forall c, collection_name c = documented_collection c) /\
  NoDup (map collection_name
           [FarmerprofileClass; SoiltestClass; FarmobservationClass;
            AnalysisresultClass]).
Proof.
  split.
  - intros []; reflexivity.
  - repeat constructor; simpl; intros H;
      repeat destruct H as [H | H]; try discriminate H; contradiction.
Qed.

End Orchestration.

(** ** The lowercased crop, over [str.lower] *)

Section OverStrLowerFacts.

Local Open Scope Z_scope.

Variable str_lower : string -> string.

(** At the ASCII lowering the functions over [str.lower] are the functions
    of the first part. *)
Lemma ascii_instance (req_farmer_id req_target_crop : option string)
    (profile : option Farmerprofile) (soil : option Soiltest)
    (obs obs_doc : option Farmobservation) :
  forecast_crop_with lower profile obs = forecast_crop profile obs /\
  simple_yield_forecast_with lower profile soil obs =
    simple_yield_forecast profile soil obs /\
  rotation_plan_with lower profile = rotation_plan profile /\
  analyze_engine_with lower req_farmer_id req_target_crop profile soil
    obs_doc =
    analyze_engine req_farmer_id req_target_crop profile soil obs_doc.
Proof. repeat split; reflexivity. Qed.

Lemma is_ascii_lower_ascii (c : ascii) :
  Nat.ltb (nat_of_ascii c) 128 = true ->
  Nat.ltb (nat_of_ascii (lower_ascii c)) 128 = true.
Proof.
  destruct c as [[] [] [] [] [] [] [] []]; intros H;
    first [reflexivity | discriminate H].
Qed.

Lemma is_ascii_lower (s : string) :
  is_ascii s = true -> is_ascii (lower s) = true.
Proof.
  induction s as [| c t IH]; simpl; [reflexivity |].
  intros H. apply andb_prop in H. destruct H as [Hc Ht].
  now rewrite (is_ascii_lower_ascii c Hc), (IH Ht).
Qed.

(** The crop resolution returns the lowercased raw crop. *)
Lemma forecast_crop_with_resolved (profile : option Farmerprofile)
    (obs : option Farmobservation) :
  forecast_crop_with str_lower profile obs =
  Ok (str_lower (raw_crop profile obs)).
Proof.
  unfold forecast_crop_with, raw_crop, target_crop_of, last_history_entry.
  assert (Hhistory :
    bind match profile with
         | Some {| crop_history := Some (x :: l) |} => last_item (x :: l)
         | _ => Ok "wheat"%string
         end (fun c => Ok (str_lower c)) =
    Ok (str_lower match match profile with
                        | Some p => match crop_history p with
                                    | Some l => List.last (map Some l) None
                                    | None => None
                                    end
                        | None => None
                        end with
                  | Some c => c
                  | None => "wheat"%string
                  end)).
  { destruct profile as [[? ? ? ? ? ? ? ? ? ? ? [[| x l] |] ?] |];
      try reflexivity.
    cbn [crop_history].
    destruct (last_item_nonempty l x) as [c [-> ->]]. reflexivity. }
  destruct obs as [[? [[| a t] |] ? ? ? ? ? ? ?] |];
    cbn [target_crop]; try exact Hhistory.
  reflexivity.
Qed.

(** The forecast over [str.lower] returns for every input. *)
Lemma simple_yield_forecast_with_returns (profile : option Farmerprofile)
    (soil : option Soiltest) (obs : option Farmobservation) :
  exists y,
    simple_yield_forecast_with str_lower profile soil obs =
      Ok {| crop := str_lower (raw_crop profile obs);
            yield_kg_per_ha := y |} /\
    int_of_float
      (float_of_int (specified_base (str_lower (raw_crop profile obs)))
       * yield_modifier soil obs)%float = Ok y /\
    1540 <= y <= 31500.
Proof.
  unfold simple_yield_forecast_with.
  rewrite forecast_crop_with_resolved. cbn [bind].
  rewrite base_yield_table.
  destruct (forecast_value _ _
              (specified_base_values (str_lower (raw_crop profile obs)))
              (yield_modifier_values soil obs)) as [y [Hy Hrange]].
  exists y. rewrite Hy. repeat split; try reflexivity; apply Hrange.
Qed.

Lemma rotation_plan_with_returns (profile : option Farmerprofile) :
  exists plan, rotation_plan_with str_lower profile = Ok plan.
Proof.
  unfold rotation_plan_with, last_crop_with.
  destruct profile as [[? ? ? ? ? ? ? ? ? ? ? [[| x l] |] ?] |];
    try (eexists; reflexivity).
  destruct (last_item_nonempty l x) as [c [-> _]]. cbn [bind].
  destruct (opt_in _ _); [eexists; reflexivity |].
  destruct (opt_in _ _); eexists; reflexivity.
Qed.

(** C4, amended: for every input the crop is the observation's target crop
    if present and not the empty string, else the last entry of the
    profile's crop history if there is one, else "wheat"; it is lowercased
    by [str.lower] and looked up in the base-yield table (wheat 3500, rice
    4500, maize 5000, soybean 2500, cotton 2200, potato 20000, tomato 30000,
    anything else 3000), and the forecast is the truncated product of that
    base and the modifier.  With no profile, no soil test and target crop
    "rice" the output is crop "rice", yield 4500; "Rice" gives the same. *)
Theorem crop_resolution_and_base_yield (profile : option Farmerprofile)
    (soil : option Soiltest) (obs : option Farmobservation) :
  agrees_on_ascii str_lower ->
  forecast_crop_with str_lower profile obs =
    Ok (str_lower (raw_crop profile obs)) /\
  dict_get_default base_yields (str_lower (raw_crop profile obs)) 3000 =
    specified_base (str_lower (raw_crop profile obs)) /\
  (exists y,
     simple_yield_forecast_with str_lower profile soil obs =
       Ok {| crop := str_lower (raw_crop profile obs);
             yield_kg_per_ha := y |} /\
     int_of_float
       (float_of_int (specified_base (str_lower (raw_crop profile obs)))
        * yield_modifier soil obs)%float = Ok y) /\
  simple_yield_forecast_with str_lower None None
    (Some (observation_with (Some "rice"%string) None None None None)) =
    Ok {| crop := "rice"; yield_kg_per_ha := 4500 |} /\
  simple_yield_forecast_with str_lower None None
    (Some (observation_with (Some "Rice"%string) None None None None)) =
    Ok {| crop := "rice"; yield_kg_per_ha := 4500 |}.
Proof.
  intros Hascii.
  split; [apply forecast_crop_with_resolved |].
  split; [apply base_yield_table |].
  split.
  - destruct (simple_yield_forecast_with_returns profile soil obs)
      as [y [Hforecast [Hvalue _]]].
    exists y. split; assumption.
  - split.
    + unfold simple_yield_forecast_with.
      rewrite forecast_crop_with_resolved. cbn [bind].
      change (raw_crop None _) with "rice"%string.
      rewrite (Hascii "rice"%string eq_refl). reflexivity.
    + unfold simple_yield_forecast_with.
      rewrite forecast_crop_with_resolved. cbn [bind].
      change (raw_crop None _) with "Rice"%string.
      rewrite (Hascii "Rice"%string eq_refl). reflexivity.
Qed.

(** X9: when the crop name the forecast is made for is ASCII, the crop the
    forecast reports is in lower case: it is the ASCII lowering of the name,
    and [str.lower] leaves it unchanged. *)
Theorem forecast_crop_is_lowercase (profile : option Farmerprofile)
    (soil : option Soiltest) (obs : option Farmobservation) :
  agrees_on_ascii str_lower ->
  is_ascii (raw_crop profile obs) = true ->
  exists forecast,
    simple_yield_forecast_with str_lower profile soil obs = Ok forecast /\
    crop forecast = lower (raw_crop profile obs) /\
    str_lower (crop forecast) = crop forecast.
Proof.
  intros Hascii Hraw.
  destruct (simple_yield_forecast_with_returns profile soil obs)
    as [y [Hforecast _]].
  eexists. split; [exact Hforecast |]. cbn [crop].
  rewrite (Hascii _ Hraw).
  split; [reflexivity |].
  rewrite (Hascii _ (is_ascii_lower _ Hraw)).
  apply lower_idempotent.
Qed.

(** X10: when the observation carries a non-empty target crop, the forecast
    is for that crop, lowercased by [str.lower], and the profile has no
    influence on it. *)
Theorem target_crop_overrides_history
    (profile1 profile2 : option Farmerprofile) (soil : option Soiltest)
    (obs : Farmobservation) (c : string) :
  target_crop obs = Some c -> c <> ""%string ->
  simple_yield_forecast_with str_lower profile1 soil (Some obs) =
    simple_yield_forecast_with str_lower profile2 soil (Some obs) /\
  exists y,
    simple_yield_forecast_with str_lower profile1 soil (Some obs) =
      Ok {| crop := str_lower c; yield_kg_per_ha := y |}.
Proof.
  intros Htarget Hnonempty.
  assert (Hcrop : forall profile, raw_crop profile (Some obs) = c).
  { intros profile. unfold raw_crop, target_crop_of.
    rewrite Htarget. destruct c as [| a t]; [contradiction | reflexivity]. }
  destruct (simple_yield_forecast_with_returns profile1 soil (Some obs))
    as [y1 [Hforecast1 [Hvalue1 _]]].
  destruct (simple_yield_forecast_with_returns profile2 soil (Some obs))
    as [y2 [Hforecast2 [Hvalue2 _]]].
  rewrite Hcrop in *.
  assert (y1 = y2) by congruence. subst y2.
  split; [congruence |]. exists y1. exact Hforecast1.
Qed.

(** X17: a non-empty requested crop replaces the stored one everywhere: the
    result reports it, the forecast is made for its form lowercased by
    [str.lower] whatever the stored observation's crop and the profile's
    history, and the first market trend carries it as given, not
    lowercased. *)
Theorem analyze_requested_crop (req_farmer_id : option string) (c : string)
    (profile : option Farmerprofile) (soil : option Soiltest)
    (obs_doc : option Farmobservation) :
  c <> ""%string ->
  exists result,
    analyze_engine_with str_lower req_farmer_id (Some c) profile soil
      obs_doc = Ok result /\
    result_target_crop result = Some c /\
    crop (yield_forecast result) = str_lower c /\
    option_map trend_crop (hd_error (result_market_trends result)) = Some c.
Proof.
  intros Hnonempty.
  destruct c as [| a t]; [contradiction |].
  unfold analyze_engine_with. cbn [nonempty_str].
  set (obs := set_target_crop _ _).
  destruct (simple_yield_forecast_with_returns profile soil (Some obs))
    as [y [-> _]].
  destruct (rotation_plan_with_returns profile) as [plan ->].
  cbn [bind].
  eexists. split; [reflexivity |]. cbn.
  repeat split; reflexivity.
Qed.

End OverStrLowerFacts.

(** The ASCII lowering is an instance of what is known of [str.lower]. *)
Lemma lower_agrees_on_ascii : agrees_on_ascii lower.
Proof. intros s _. reflexivity. Qed.

Lemma crop_resolution_and_base_yield_witness :
  let profile :=
    Some (profile_with None None None (Some ["maize"; "Potato"]%string)) in
  let soil := Some (soil_with (Some 6.5%float) (Some 1.0%float)) in
  let obs := Some (observation_with (Some ""%string) None None None None) in
  forecast_crop_with lower profile obs = Ok "potato"%string /\
  simple_yield_forecast_with lower profile soil obs =
    Ok {| crop := "potato"; yield_kg_per_ha := 20000 |} /\
  simple_yield_forecast_with lower None None
    (Some (observation_with (Some "rice"%string) None None None None)) =
    Ok {| crop := "rice"; yield_kg_per_ha := 4500 |}.
Proof.
  cbv zeta.
  destruct (crop_resolution_and_base_yield lower
              (Some (profile_with None None None
                       (Some ["maize"; "Potato"]%string)))
              (Some (soil_with (Some 6.5%float) (Some 1.0%float)))
              (Some (observation_with (Some ""%string) None None None None))
              lower_agrees_on_ascii)
    as [Hcrop [_ [[y [Hforecast Hvalue]] [Hrice _]]]].
  split; [exact Hcrop |]. split; [| exact Hrice].
  rewrite Hforecast. vm_compute in Hvalue.
  injection Hvalue as <-. reflexivity.
Defined.

Lemma forecast_crop_is_lowercase_witness :
  exists forecast,
    simple_yield_forecast_with lower None None
      (Some (observation_with (Some "Sweet Corn"%string) None None None
               None)) = Ok forecast /\
    crop forecast = "sweet corn"%string /\
    lower (crop forecast) = crop forecast.
Proof.
  apply (forecast_crop_is_lowercase lower None None
           (Some (observation_with (Some "Sweet Corn"%string) None None None
                    None))
           lower_agrees_on_ascii eq_refl).
Defined.

Lemma target_crop_overrides_history_witness :
  let obs := observation_with (Some "Rice"%string) None None None None in
  let profile1 :=
    Some (profile_with None None None (Some ["cotton"; "potato"]%string)) in
  simple_yield_forecast_with lower profile1 None (Some obs) =
    simple_yield_forecast_with lower None None (Some obs) /\
  exists y,
    simple_yield_forecast_with lower profile1 None (Some obs) =
      Ok {| crop := "rice"; yield_kg_per_ha := y |}.
Proof.
  cbv zeta.
  apply (target_crop_overrides_history lower
           (Some (profile_with None None None
                    (Some ["cotton"; "potato"]%string)))
           None None
           (observation_with (Some "Rice"%string) None None None None)
           "Rice"%string eq_refl).
  discriminate.
Defined.

Lemma analyze_requested_crop_witness :
  exists result,
    analyze_engine_with lower (Some "507f1f77bcf86cd799439011"%string)
      (Some "Maize"%string)
      (Some (profile_with None None None (Some ["cotton"]%string)))
      None
      (Some (observation_with (Some "rice"%string) None None None None)) =
      Ok result /\
    result_target_crop result = Some "Maize"%string /\
    crop (yield_forecast result) = "maize"%string /\
    option_map trend_crop (hd_error (result_market_trends result)) =
      Some "Maize"%string.
Proof.
  apply (analyze_requested_crop lower
           (Some "507f1f77bcf86cd799439011"%string) "Maize"%string
           (Some (profile_with None None None (Some ["cotton"]%string)))
           None
           (Some (observation_with (Some "rice"%string) None None None
                    None))).
  discriminate.
Defined.
